(** * Portfolio front-end script: carousel, nav-link scrolling, sidebar toggle

    Shallow embedding of [src/static/js/main.js] and of the later revision of
    the same script, [src/unnamed/part_000].

    The carousel block is embedded twice, from the same text.  [Carousel]
    reads its numbers as exact rationals [Q] (equality is [==]): it carries
    the statements about ranges and invariants, where rounding plays no
    part.  [Carousel64] computes as the script does, in binary64
    ([PrimFloat]): it carries the statements about the values the script
    computes and the branch it takes.  Scroll positions and box sizes of the
    navigation part are rationals.  The browser is the environment: what it
    measures (bounding boxes, computed style, media queries, the scroll
    range) is read from records, and what the script asks of it (scrolling,
    timers, animation frames) is recorded in the state. *)

From Stdlib Require Import QArith Qabs Lqa ZArith Lia List Ascii String Bool.
From Stdlib Require Import Floats.
Import ListNotations.
Open Scope Q_scope.

(** ** The carousel block

    Lines 56-125 of [main.js] and lines 83-152 of [part_000] are the same
    text, so one module embeds both. *)
Module Carousel.

(** [<img src=... alt=...>] *)
Record Img := { img_src : string; img_alt : string }.

(** [<div class=...>] holding the images appended to it. *)
Record Item := { className : string; children : list Img }.

(** The value of [style.transform] the script writes:
    [`translateX(${offset}px)`]. *)
Inductive Transform := translateX (px : Q).

(** [#carouselTrack]: its child items, and [style.transform] ([None] until
    the script writes it). *)
Record Track := { items : list Item; transform : option Transform }.

(** What the browser reports for one laid-out item:
    [getBoundingClientRect().width] and
    [parseFloat(getComputedStyle(item).marginRight || 0)]. *)
Record Box := { box_width : Q; box_marginRight : Q }.

(** The [let]-bound variables of the setup block. *)
Record Vars := { speed : Q; offset : Q; lastTime : Q; halfWidth : Q }.

Inductive Listener := OnResize | OnMouseEnter | OnMouseLeave.

(** The part of the page the carousel block touches.  [vars] is [None]
    while the block has not run, or when it was skipped. *)
Record Page := {
  carouselTrack : option Track;   (* document.getElementById('carouselTrack') *)
  frameRequests : nat;            (* pending requestAnimationFrame(step) *)
  listeners : list Listener;      (* addEventListener calls of the block *)
  vars : option Vars
}.

(** [imageList.forEach(src => { ... track.appendChild(item) })], one
    iteration. *)
Definition makeItem (src : string) : Item :=
  {| className := "carousel-item";
     children := [ {| img_src := src; img_alt := "Carousel image" |} ] |}.

Definition appendChild (it : Item) (t : Track) : Track :=
  {| items := items t ++ [it]; transform := transform t |}.

Fixpoint appendAll (srcs : list string) (t : Track) : Track :=
  match srcs with
  | [] => t
  | src :: rest => appendAll rest (appendChild (makeItem src) t)
  end.

(** ASCII whitespace, which separates the tokens of a [class]
    attribute. *)
Definition isSpace (c : ascii) : bool :=
  Ascii.eqb c " " || Ascii.eqb c "009" || Ascii.eqb c "010"
  || Ascii.eqb c "012" || Ascii.eqb c "013".

(** The class tokens of [s], [cur] being the token read so far. *)
Fixpoint splitClass (s cur : string) : list string :=
  match s with
  | EmptyString =>
      match cur with EmptyString => [] | _ => [cur] end
  | String c rest =>
      if isSpace c
      then match cur with
           | EmptyString => splitClass rest EmptyString
           | _ => cur :: splitClass rest EmptyString
           end
      else splitClass rest (cur ++ String c EmptyString)
  end.

(** Whether an element with this [className] matches the selector
    [.c]. *)
Definition hasClass (c className : string) : bool :=
  existsb (String.eqb c) (splitClass className EmptyString).

(** [track.querySelectorAll('.carousel-item')] *)
Definition carouselItems (t : Track) : list Item :=
  filter (fun it => hasClass "carousel-item" (className it)) (items t).

(** The body of the [for] loop of [getHalfWidth], from index [i], for
    [k] more iterations. *)
Fixpoint sumBoxes (measure : nat -> Box) (i k : nat) (half : Q) : Q :=
  match k with
  | O => half
  | S k' =>
      sumBoxes measure (S i) k'
        (half + (box_width (measure i) + box_marginRight (measure i)))
  end.

(** [getHalfWidth]: [count = items.length / 2] is not rounded, so
    [i < count] lets [i] run up to the half rounded up.  The sum is exact
    here and rounded in [Carousel64.getHalfWidth]. *)
Definition getHalfWidth (measure : nat -> Box) (t : Track) : Q :=
  let n := List.length (carouselItems t) in
  sumBoxes measure 0 (Nat.div2 (S n)) 0.

(** [function step(now)]: the new variables and the track with its
    transform written, in exact arithmetic ([Carousel64.step] is the same
    function in binary64).  The closing [requestAnimationFrame(step)] is in
    [frame] below. *)
Definition step (now : Q) (v : Vars) (t : Track) : Vars * Track :=
  let dt := (now - lastTime v) / 1000 in
  let offset1 := offset v - speed v * dt in
  let offset2 :=
    if Qle_bool (halfWidth v) (Qabs offset1)
    then offset1 + halfWidth v
    else offset1 in
  ({| speed := speed v; offset := offset2;
      lastTime := now; halfWidth := halfWidth v |},
   {| items := items t; transform := Some (translateX offset2) |}).

(** The handlers the block registers. *)
Definition onResize (measure : nat -> Box) (v : Vars) (t : Track) : Vars :=
  {| speed := speed v; offset := offset v;
     lastTime := lastTime v; halfWidth := getHalfWidth measure t |}.

Definition onMouseEnter (v : Vars) : Vars :=
  {| speed := 0; offset := offset v;
     lastTime := lastTime v; halfWidth := halfWidth v |}.

Definition onMouseLeave (v : Vars) : Vars :=
  {| speed := 40; offset := offset v;
     lastTime := lastTime v; halfWidth := halfWidth v |}.

(** What the event loop delivers to a carousel that was set up. *)
Inductive Event :=
| Frame (now : Q)                    (* an animation frame fires *)
| MouseEnter
| MouseLeave
| Resize (measure : nat -> Box).     (* layout after the resize *)

Definition handle (ev : Event) (s : Vars * Track) : Vars * Track :=
  let (v, t) := s in
  match ev with
  | Frame now => step now v t
  | MouseEnter => (onMouseEnter v, t)
  | MouseLeave => (onMouseLeave v, t)
  | Resize measure => (onResize measure v t, t)
  end.

Definition run (evs : list Event) (s : Vars * Track) : Vars * Track :=
  fold_left (fun s ev => handle ev s) evs s.

(** One animation frame on the page: the pending request is consumed,
    [step] runs and requests the next frame. *)
Definition frame (now : Q) (p : Page) : Page :=
  match frameRequests p, carouselTrack p, vars p with
  | S k, Some t, Some v =>
      let (v', t') := step now v t in
      {| carouselTrack := Some t'; frameRequests := S k;
         listeners := listeners p; vars := Some v' |}
  | _, _, _ => p
  end.

(** The setup block.  [images] is [window.CAROUSEL_IMAGES] ([None] when
    the page does not define it), [now] is [performance.now()]. *)
Definition carouselSetup (images : option (list string))
    (measure : nat -> Box) (now : Q) (p : Page) : Page :=
  let images := match images with Some l => l | None => [] end in
  match carouselTrack p, images with
  | Some track, _ :: _ =>
      let imageList := images ++ images in
      let track := appendAll imageList track in
      {| carouselTrack := Some track;
         frameRequests := S (frameRequests p);
         listeners :=
           listeners p ++ [OnResize; OnMouseEnter; OnMouseLeave];
         vars := Some {| speed := 40; offset := 0; lastTime := now;
                         halfWidth := getHalfWidth measure track |} |}
  | _, _ => p
  end.

End Carousel.

(** ** The carousel block in binary64

    The same lines of the two files, with every number a double and every
    operation rounded as the script's is.  Items and listeners are those of
    [Carousel]. *)
Module Carousel64.
Local Open Scope float_scope.

Inductive Transform := translateX (px : float).

Record Track := {
  items : list Carousel.Item;
  transform : option Transform
}.

Record Box := { box_width : float; box_marginRight : float }.

Record Vars := {
  speed : float; offset : float; lastTime : float; halfWidth : float
}.

Record Page := {
  carouselTrack : option Track;
  frameRequests : nat;
  listeners : list Carousel.Listener;
  vars : option Vars
}.

Definition appendChild (it : Carousel.Item) (t : Track) : Track :=
  {| items := items t ++ [it]; transform := transform t |}.

Fixpoint appendAll (srcs : list string) (t : Track) : Track :=
  match srcs with
  | [] => t
  | src :: rest => appendAll rest (appendChild (Carousel.makeItem src) t)
  end.

Definition carouselItems (t : Track) : list Carousel.Item :=
  filter (fun it => Carousel.hasClass "carousel-item" (Carousel.className it))
         (items t).

(** The loop of [getHalfWidth]: [half += width + marginRight], both
    additions rounded. *)
Fixpoint sumBoxes (measure : nat -> Box) (i k : nat) (half : float) : float :=
  match k with
  | O => half
  | S k' =>
      sumBoxes measure (S i) k'
        (half + (box_width (measure i) + box_marginRight (measure i)))
  end.

Definition getHalfWidth (measure : nat -> Box) (t : Track) : float :=
  let n := List.length (carouselItems t) in
  sumBoxes measure 0 (Nat.div2 (S n)) 0.

Definition step (now : float) (v : Vars) (t : Track) : Vars * Track :=
  let dt := (now - lastTime v) / 1000 in
  let offset1 := offset v - speed v * dt in
  let offset2 :=
    if halfWidth v <=? abs offset1
    then offset1 + halfWidth v
    else offset1 in
  ({| speed := speed v; offset := offset2;
      lastTime := now; halfWidth := halfWidth v |},
   {| items := items t; transform := Some (translateX offset2) |}).

Definition onResize (measure : nat -> Box) (v : Vars) (t : Track) : Vars :=
  {| speed := speed v; offset := offset v;
     lastTime := lastTime v; halfWidth := getHalfWidth measure t |}.

Definition onMouseEnter (v : Vars) : Vars :=
  {| speed := 0; offset := offset v;
     lastTime := lastTime v; halfWidth := halfWidth v |}.

Definition onMouseLeave (v : Vars) : Vars :=
  {| speed := 40; offset := offset v;
     lastTime := lastTime v; halfWidth := halfWidth v |}.

Definition carouselSetup (images : option (list string))
    (measure : nat -> Box) (now : float) (p : Page) : Page :=
  let images := match images with Some l => l | None => [] end in
  match carouselTrack p, images with
  | Some track, _ :: _ =>
      let imageList := images ++ images in
      let track := appendAll imageList track in
      {| carouselTrack := Some track;
         frameRequests := S (frameRequests p);
         listeners :=
           listeners p
           ++ [Carousel.OnResize; Carousel.OnMouseEnter;
               Carousel.OnMouseLeave];
         vars := Some {| speed := 40; offset := 0; lastTime := now;
                         halfWidth := getHalfWidth measure track |} |}
  | _, _ => p
  end.

End Carousel64.

(** ** The page as the navigation and sidebar handlers see it *)
Module Dom.

(** A section a nav link can point to; [docTop] is the distance of its top
    edge from the top of the document. *)
Record Element := { docTop : Q }.

(** DOMTokenList operations on [classList]. *)
Definition contains (c : string) (l : list string) : bool :=
  existsb (String.eqb c) l.

Definition remove (c : string) (l : list string) : list string :=
  filter (fun x => negb (String.eqb c x)) l.

Definition toggle (c : string) (l : list string) : list string :=
  if contains c l then remove c l else l ++ [c].

(** [#sidebar]: the computed [position], its bounding box, its class list,
    and whether [querySelector('.nav-link')] finds a link inside it. *)
Record Sidebar := {
  position : string;
  width : Q;
  height : Q;
  classList : list string;
  hasNavLink : bool
}.

(** A change of the class list.  The box and the position are kept as the
    browser last reported them: what the page's stylesheet makes of the new
    class list is not part of the script, so statements that compare two
    measurements of the sidebar are made for pages on which its class list
    does not change in between. *)
Definition setClassList (l : list string) (sb : Sidebar) : Sidebar :=
  {| position := position sb; width := width sb; height := height sb;
     classList := l; hasNavLink := hasNavLink sb |}.

(** The arrow function [part_000] hands to [setTimeout]; it closes over
    [offset] and [href]. *)
Inductive Task := Nudge (offset : Q) (href : string).

(** Calls into the browser that leave no other trace in [Window]. *)
Inductive Call :=
| PreventDefault
| ScrollTo (top : Q) (smooth : bool)
| ScrollIntoView (target : Element)
| ScrollBy (top : Q)
| ConsoleWarn (href : string)
| ReplaceState (href : string)
| Focus.

(** What [document.querySelector] does with a selector: it returns the
    first matching element, or [null], or throws a [SyntaxError] on a string
    that is no selector (["#"], the empty string, ["/resume.pdf"]). *)
Inductive Lookup :=
| Found (el : Element)
| NotFound
| BadSelector.

(** The window and document, as far as the handlers read or change them.
    [scrollMax] is the largest scroll position of the page (the height of
    the document less the height of the viewport); [querySelector] is the
    page's answer to each selector string. *)
Record Window := {
  scrollY : Q;
  scrollMax : Q;
  innerWidth : Q;
  maxWidth640 : bool;        (* matchMedia('(max-width: 640px)').matches *)
  sidebar : option Sidebar;  (* getElementById('sidebar') *)
  sidebarToggle : bool;      (* getElementById('sidebarToggle') is there *)
  querySelector : string -> Lookup;
  scrollByOptions : bool;    (* scrollBy takes an options object *)
  hasReplaceState : bool;    (* history.replaceState is defined *)
  timers : list (Z * Task);  (* pending setTimeout callbacks, delay in ms *)
  log : list Call
}.

Definition setScrollY (y : Q) (w : Window) : Window :=
  {| scrollY := y; scrollMax := scrollMax w;
     innerWidth := innerWidth w; maxWidth640 := maxWidth640 w;
     sidebar := sidebar w; sidebarToggle := sidebarToggle w;
     querySelector := querySelector w;
     scrollByOptions := scrollByOptions w;
     hasReplaceState := hasReplaceState w;
     timers := timers w; log := log w |}.

Definition setSidebar (sb : option Sidebar) (w : Window) : Window :=
  {| scrollY := scrollY w; scrollMax := scrollMax w;
     innerWidth := innerWidth w; maxWidth640 := maxWidth640 w;
     sidebar := sb; sidebarToggle := sidebarToggle w;
     querySelector := querySelector w;
     scrollByOptions := scrollByOptions w;
     hasReplaceState := hasReplaceState w;
     timers := timers w; log := log w |}.

Definition setTimers (ts : list (Z * Task)) (w : Window) : Window :=
  {| scrollY := scrollY w; scrollMax := scrollMax w;
     innerWidth := innerWidth w; maxWidth640 := maxWidth640 w;
     sidebar := sidebar w; sidebarToggle := sidebarToggle w;
     querySelector := querySelector w;
     scrollByOptions := scrollByOptions w;
     hasReplaceState := hasReplaceState w;
     timers := ts; log := log w |}.

Definition setLog (l : list Call) (w : Window) : Window :=
  {| scrollY := scrollY w; scrollMax := scrollMax w;
     innerWidth := innerWidth w; maxWidth640 := maxWidth640 w;
     sidebar := sidebar w; sidebarToggle := sidebarToggle w;
     querySelector := querySelector w;
     scrollByOptions := scrollByOptions w;
     hasReplaceState := hasReplaceState w;
     timers := timers w; log := l |}.

(** [el.getBoundingClientRect().top]: relative to the viewport. *)
Definition rectTop (el : Element) (w : Window) : Q := docTop el - scrollY w.

(** *** Handlers as state transformers that may throw *)
Inductive Exception := TypeError | SyntaxError.

Inductive Outcome (A : Type) :=
| Returned (a : A) (w : Window)
| Threw (e : Exception) (w : Window).
Arguments Returned {A} a w.
Arguments Threw {A} e w.

Definition M (A : Type) := Window -> Outcome A.

Definition ret {A} (a : A) : M A := fun w => Returned a w.

Definition bind {A B} (c : M A) (k : A -> M B) : M B :=
  fun w => match c w with
           | Returned a w' => k a w'
           | Threw e w' => Threw e w'
           end.

Definition throw {A} (e : Exception) : M A := fun w => Threw e w.

(** [try { c } catch (err) { h }] *)
Definition tryCatch {A} (c : M A) (h : M A) : M A :=
  fun w => match c w with
           | Returned a w' => Returned a w'
           | Threw _ w' => h w'
           end.

Definition get : M Window := fun w => Returned w w.
Definition modify (f : Window -> Window) : M unit :=
  fun w => Returned tt (f w).

Definition finalWindow {A} (o : Outcome A) : Window :=
  match o with Returned _ w => w | Threw _ w => w end.

Definition threw {A} (o : Outcome A) : bool :=
  match o with Returned _ _ => false | Threw _ _ => true end.

Declare Scope js_scope.
Delimit Scope js_scope with js.
Notation "x <- c ;; k" := (bind c (fun x => k))
  (at level 100, c at next level, right associativity) : js_scope.
Notation "c ;; k" := (bind c (fun _ => k))
  (at level 100, right associativity) : js_scope.

Definition record (c : Call) : M unit :=
  modify (fun w => setLog (log w ++ [c]) w).

(** *** The browser's side of the calls

    A scroll ends at the position asked for, clamped to the scroll range
    [[0, scrollMax]] of the page; a smooth scroll is followed to its
    end. *)
Definition clamp (max y : Q) : Q :=
  if Qle_bool y 0 then 0
  else if Qle_bool max y then max
  else y.

Definition preventDefault : M unit := record PreventDefault.

(** [document.querySelector(sel)] *)
Definition documentQuerySelector (sel : string) : M (option Element) :=
  fun w =>
    match querySelector w sel with
    | Found el => Returned (Some el) w
    | NotFound => Returned None w
    | BadSelector => Threw SyntaxError w
    end.

Definition scrollTo (top : Q) (smooth : bool) : M unit :=
  bind (record (ScrollTo top smooth))
       (fun _ => modify (fun w => setScrollY (clamp (scrollMax w) top) w)).

(** [target.scrollIntoView({ behavior: 'smooth', block: 'start' })]: the
    top of the target goes to the top of the viewport, as far as the scroll
    range allows. *)
Definition scrollIntoView (target : Element) : M unit :=
  bind (record (ScrollIntoView target))
       (fun _ => modify (fun w =>
                   setScrollY (clamp (scrollMax w) (docTop target)) w)).

(** [window.scrollBy({ top, left: 0, behavior: 'smooth' })]; a browser
    without support for the options object throws. *)
Definition scrollBy (top : Q) : M unit :=
  fun w =>
    if scrollByOptions w
    then bind (record (ScrollBy top))
              (fun _ => modify (fun w =>
                          setScrollY (clamp (scrollMax w) (scrollY w + top))
                                     w)) w
    else Threw TypeError w.

Definition setTimeout (task : Task) (delay : Z) : M unit :=
  modify (fun w => setTimers (timers w ++ [(delay, task)]) w).

(** [if (sidebar && sidebar.classList.contains('open'))
      sidebar.classList.remove('open')]; the sidebar is the page's own
    object, so the removal shows in the window. *)
Definition closeSidebar (sb : option Sidebar) : M unit :=
  match sb with
  | Some sb =>
      if contains "open" (classList sb)
      then modify (setSidebar
                     (Some (setClassList (remove "open" (classList sb)) sb)))
      else ret tt
  | None => ret tt
  end.

(** A nav link, [this] in its click handler: [getAttribute('href')] is
    [None] when the attribute is missing. *)
Record Link := { href : option string }.

(** The click event: whether [e.currentTarget] is set. *)
Record ClickEvent := { currentTarget : bool }.

(** A string argument of a DOM call: [null] becomes ["null"]. *)
Definition toDOMString (s : option string) : string :=
  match s with Some s => s | None => "null" end.

End Dom.

(** ** [src/static/js/main.js], lines 12-54 *)
Module MainJs.
Import Dom.
Local Open Scope js_scope.

(** [sidebarStyle.position === 'fixed' &&
     sidebar.getBoundingClientRect().width >= window.innerWidth - 1] *)
Definition isTopBar (sb : Sidebar) (w : Window) : bool :=
  String.eqb (position sb) "fixed" && Qle_bool (innerWidth w - 1) (width sb).

(** The [offset] of the nav-link click handler (lines 24-33). *)
Definition scrollOffset (w : Window) : Q :=
  match sidebar w with
  | Some sb => if isTopBar sb w then height sb + 8 else 12
  | None => 12
  end.

(** The click handler of every [.nav-link] (lines 16-44). *)
Definition navLinkClick (this : Link) : M unit :=
  preventDefault ;;
  target <- documentQuerySelector (toDOMString (href this)) ;;
  match target with
  | None => ret tt
  | Some target =>
      w <- get ;;
      let sidebar := sidebar w in
      let offset := scrollOffset w in
      let scrollTarget := scrollY w + rectTop target w - offset in
      scrollTo scrollTarget true ;;
      closeSidebar sidebar
  end.

(** The click handler of [#sidebarToggle] (lines 50-53):
    [sidebar.classList] is read without a check of [sidebar]. *)
Definition sidebarToggleClick : M unit :=
  w <- get ;;
  match sidebar w with
  | None => throw TypeError
  | Some sb =>
      modify (setSidebar
                (Some (setClassList (toggle "open" (classList sb)) sb)))
  end.

(** A click on the toggle button: the handler is registered only when the
    button exists (line 49). *)
Definition clickToggle : M unit :=
  fun w => if sidebarToggle w then sidebarToggleClick w else Returned tt w.

End MainJs.

(** ** [src/unnamed/part_000], lines 12-81 *)
Module Part000.
Import Dom.
Local Open Scope js_scope.

(** [getSidebarAndOffset] (lines 13-22): the top-bar test is the media
    query. *)
Definition getSidebarAndOffset : M (option Sidebar * Q) :=
  w <- get ;;
  let sidebar := sidebar w in
  let offset :=
    match sidebar with
    | Some sb => if maxWidth640 w then height sb + 8 else 12
    | None => 12
    end in
  ret (sidebar, offset).

(** [href.charAt(0) !== '#'], negated. *)
Definition startsWithHash (href : string) : bool :=
  match href with
  | String c _ => Ascii.eqb c "#"%char
  | EmptyString => false
  end.

(** [!href]: [null] and the empty string are falsy. *)
Definition falsy (href : option string) : bool :=
  match href with
  | None | Some EmptyString => true
  | Some _ => false
  end.

(** [onNavLinkClick] (lines 25-62), the click handler of every
    [.nav-link]. *)
Definition onNavLinkClick (e : ClickEvent) (this : Link) : M unit :=
  if negb (currentTarget e) then ret tt else
  preventDefault ;;
  let h := href this in
  if falsy h || negb (startsWithHash (toDOMString h)) then ret tt else
  let href := toDOMString h in
  target <- documentQuerySelector href ;;
  match target with
  | None => record (ConsoleWarn href)
  | Some target =>
      so <- getSidebarAndOffset ;;
      let (sidebar, offset) := so in
      scrollIntoView target ;;
      setTimeout (Nudge offset href) 320 ;;
      closeSidebar sidebar
  end.

(** The body of the timer callback (lines 47-58). *)
Definition fire (t : Task) : M unit :=
  match t with
  | Nudge offset href =>
      tryCatch (scrollBy (- offset))
               (w <- get ;; scrollTo (scrollY w - offset) false) ;;
      w <- get ;;
      if hasReplaceState w then record (ReplaceState href) else ret tt
  end.

Fixpoint fireAll (ts : list (Z * Task)) : M unit :=
  match ts with
  | [] => ret tt
  | (_, t) :: rest => fire t ;; fireAll rest
  end.

(** The event loop runs the pending timer callbacks, oldest first. *)
Definition runTimers : M unit :=
  w <- get ;;
  modify (setTimers []) ;;
  fireAll (timers w).

(** The click handler of [#sidebarToggle] (lines 71-80). *)
Definition sidebarToggleClick : M unit :=
  w <- get ;;
  match sidebar w with
  | None => ret tt
  | Some sb =>
      let sb' := setClassList (toggle "open" (classList sb)) sb in
      modify (setSidebar (Some sb')) ;;
      if contains "open" (classList sb') && hasNavLink sb'
      then record Focus
      else ret tt
  end.

(** A click on the toggle button; the handler is registered only when the
    button exists (line 70). *)
Definition clickToggle : M unit :=
  fun w => if sidebarToggle w then sidebarToggleClick w else Returned tt w.

End Part000.

(** ** Observations and sample pages used in the statements *)

(** The [src] of every image inside a run of items, in document order. *)
Definition srcsOf (l : list Carousel.Item) : list string :=
  flat_map (fun it => map Carousel.img_src (Carousel.children it)) l.

(** A track with nothing in it yet. *)
Definition emptyTrack : Carousel.Track :=
  {| Carousel.items := []; Carousel.transform := None |}.

(** The variables as the setup block leaves them, for a half width of
    100px and [performance.now()] returning [t0]. *)
Definition freshVars (t0 : Q) : Carousel.Vars :=
  {| Carousel.speed := 40; Carousel.offset := 0;
     Carousel.lastTime := t0; Carousel.halfWidth := 100 |}.

(** Every item 50px wide with no margin. *)
Definition uniformLayout : nat -> Carousel.Box :=
  fun _ => {| Carousel.box_width := 50; Carousel.box_marginRight := 0 |}.

Definition trackOnlyPage : Carousel.Page :=
  {| Carousel.carouselTrack := Some emptyTrack; Carousel.frameRequests := 0;
     Carousel.listeners := []; Carousel.vars := None |}.

(** Whether the sidebar carries the class [open]. *)
Definition isOpen (w : Dom.Window) : bool :=
  match Dom.sidebar w with
  | Some sb => Dom.contains "open" (Dom.classList sb)
  | None => false
  end.

(** The sidebar once the class [open] is taken off it. *)
Definition withoutOpen (sb : option Dom.Sidebar) : option Dom.Sidebar :=
  match sb with
  | Some s =>
      Some (Dom.setClassList (Dom.remove "open" (Dom.classList s)) s)
  | None => None
  end.

(** A click handled by [part_000], followed by the event loop running the
    timer callbacks it left pending. *)
Definition clickAndSettle (e : Dom.ClickEvent) (this : Dom.Link)
  : Dom.M unit :=
  Dom.bind (Part000.onNavLinkClick e this) (fun _ => Part000.runTimers).

(** A page 2000px longer than its viewport, scrolled to 100px, in a
    browser that has [scrollBy] options and [history.replaceState].  It has
    three sections: [#home] at the very top, [#about] 500px down, and
    [#footer], a short last section 2400px down, which the page cannot
    bring to the top of the viewport.  The browser rejects the empty
    string, ["#"] and strings that start with a slash as selectors. *)
Definition homeSection : Dom.Element := {| Dom.docTop := 0 |}.
Definition aboutSection : Dom.Element := {| Dom.docTop := 500 |}.
Definition footerSection : Dom.Element := {| Dom.docTop := 2400 |}.

Definition sampleLookup (sel : string) : Dom.Lookup :=
  if String.eqb sel "#home" then Dom.Found homeSection
  else if String.eqb sel "#about" then Dom.Found aboutSection
  else if String.eqb sel "#footer" then Dom.Found footerSection
  else match sel with
       | EmptyString => Dom.BadSelector
       | String c rest =>
           if Ascii.eqb c "/" then Dom.BadSelector
           else if String.eqb sel "#" then Dom.BadSelector
           else Dom.NotFound
       end.

Definition samplePage (innerWidth : Q) (narrow : bool)
    (sb : option Dom.Sidebar) (toggle : bool) : Dom.Window :=
  {| Dom.scrollY := 100; Dom.scrollMax := 2000;
     Dom.innerWidth := innerWidth; Dom.maxWidth640 := narrow;
     Dom.sidebar := sb; Dom.sidebarToggle := toggle;
     Dom.querySelector := sampleLookup;
     Dom.scrollByOptions := true; Dom.hasReplaceState := true;
     Dom.timers := []; Dom.log := [] |}.

(** A sidebar laid out as a column on a wide screen, closed. *)
Definition columnSidebar : Dom.Sidebar :=
  {| Dom.position := "fixed"; Dom.width := 240; Dom.height := 900;
     Dom.classList := ["sidebar"%string]; Dom.hasNavLink := true |}.

(** A sidebar laid out as a 64px bar across a 400px screen, open. *)
Definition topBarSidebar : Dom.Sidebar :=
  {| Dom.position := "fixed"; Dom.width := 400; Dom.height := 64;
     Dom.classList := ["sidebar"; "open"]%string; Dom.hasNavLink := true |}.

(** The same bar kept in the flow with [position: sticky]. *)
Definition stickyBarSidebar : Dom.Sidebar :=
  {| Dom.position := "sticky"; Dom.width := 400; Dom.height := 64;
     Dom.classList := ["sidebar"%string]; Dom.hasNavLink := true |}.

Definition aboutLink : Dom.Link := {| Dom.href := Some "#about"%string |}.
Definition homeLink : Dom.Link := {| Dom.href := Some "#home"%string |}.
Definition footerLink : Dom.Link := {| Dom.href := Some "#footer"%string |}.

Definition userClick : Dom.ClickEvent := {| Dom.currentTarget := true |}.

(** Animation frames delivered to the page, one after the other. *)
Definition frames (nows : list Q) (p : Carousel.Page) : Carousel.Page :=
  fold_left (fun p now => Carousel.frame now p) nows p.


(** Two clicks handled by [part_000] before the event loop gets to the
    timers, then the timers. *)
Definition twoClicksAndSettle (e : Dom.ClickEvent) (first second : Dom.Link)
  : Dom.M unit :=
  Dom.bind (Part000.onNavLinkClick e first)
    (fun _ => Dom.bind (Part000.onNavLinkClick e second)
                (fun _ => Part000.runTimers)).

(** The real number a double stands for ([None] for infinities and NaN). *)
Definition exactValue (x : float) : option Q :=
  match Prim2SF x with
  | S754_zero _ => Some 0
  | S754_finite s m e =>
      let mag := inject_Z (Z.pos m) * Qpower (2 # 1) e in
      Some (if s then - mag else mag)
  | S754_infinity _ | S754_nan => None
  end.

(** The variables of the binary64 block as setup leaves them, for a half
    width [hw] and [performance.now()] returning 0. *)
Definition freshVars64 (hw : float) : Carousel64.Vars :=
  {| Carousel64.speed := 40%float; Carousel64.offset := 0%float;
     Carousel64.lastTime := 0%float; Carousel64.halfWidth := hw |}.

Definition emptyTrack64 : Carousel64.Track :=
  {| Carousel64.items := []; Carousel64.transform := None |}.




(** ** The carousel step *)
Section CarouselStep.
Import Carousel.

Lemma Qle_bool_false (x y : Q) : Qle_bool x y = false -> y < x.
Proof.
  intros E. apply Qnot_le_lt. intros H.
  apply Qle_bool_iff in H. congruence.
Qed.


Lemma step_offset_nowrap (now : Q) (v : Vars) (t : Track) :
  Qabs (offset v - speed v * ((now - lastTime v) / 1000)) < halfWidth v ->
  offset (fst (step now v t))
  = offset v - speed v * ((now - lastTime v) / 1000).
Proof.
  intros H. unfold step. cbv zeta. cbn [fst offset].
  destruct (Qle_bool _ _) eqn:E; [|reflexivity].
  apply Qle_bool_iff in E. exfalso. apply (Qlt_not_le _ _ H E).
Qed.

Lemma step_transform (now : Q) (v : Vars) (t : Track) :
  transform (snd (step now v t))
  = Some (translateX (offset (fst (step now v t)))).
Proof. reflexivity. Qed.

End CarouselStep.

(** ** The step as the script computes it *)
Section Binary64Step.
Import Carousel64.
Local Open Scope float_scope.

Lemma ltb_leb (x y : float) : (x <? y) = true -> (x <=? y) = true.
Proof.
  rewrite ltb_spec, leb_spec. unfold SFltb, SFleb.
  destruct (SFcompare (Prim2SF x) (Prim2SF y)) as [[ | | ] | ]; congruence.
Qed.

(** C1, as amended.  Every call [step now] computes, in binary64,
    [dt = (now - lastTime) / 1000] and then the advanced offset
    [offset - speed * dt] (the quotient first, then the product, then the
    difference, each rounded).  When the absolute value of the advanced
    offset exceeds or equals [halfWidth], [halfWidth] is added once;
    otherwise (the comparison fails, also on NaN) nothing is added.  The
    transform written to the track is [translateX] of the resulting offset;
    [lastTime] becomes [now], [speed], [halfWidth] and the items stay. *)
Theorem step_advances_in_binary64_and_wraps_once :
  forall (now : float) (v : Vars) (t : Track),
    let dt := (now - lastTime v) / 1000 in
    let advanced := offset v - speed v * dt in
    let v' := fst (step now v t) in
    let t' := snd (step now v t) in
    ((halfWidth v <? abs advanced) = true ->
     offset v' = advanced + halfWidth v) /\
    ((halfWidth v <=? abs advanced) = true ->
     offset v' = advanced + halfWidth v) /\
    ((halfWidth v <=? abs advanced) = false -> offset v' = advanced) /\
    transform t' = Some (translateX (offset v')) /\
    items t' = items t /\
    lastTime v' = now /\ speed v' = speed v /\ halfWidth v' = halfWidth v.
Proof.
  intros now v t dt advanced v' t'.
  assert (W : (halfWidth v <=? abs advanced) = true ->
              offset v' = advanced + halfWidth v).
  { intros H. subst v' advanced dt. unfold step. cbn [fst offset].
    now rewrite H. }
  split; [intros H; apply W, ltb_leb, H |].
  split; [exact W |].
  split; [| repeat split].
  intros H. subst v' advanced dt. unfold step. cbn [fst offset].
  now rewrite H.
Qed.

(** C1 as stated fails in two ways.  With speed 40, offset 0,
    [lastTime] 0 and [now] 11, all doubles, the offset the script computes
    is [0 - 40 * (11 / 1000)], which is neither the double that
    [0 - 40 * (11 - 0) / 1000] evaluates to nor the real number -11/25.
    And with [halfWidth] 100 and [now] 2500 the advanced offset is exactly
    -100: its absolute value does not exceed [halfWidth], yet [halfWidth] is
    added and the offset written is 0. *)
Lemma step_differs_from_closed_form :
  (offset (fst (step 11 (freshVars64 1000) emptyTrack64))
   =? 0 - 40 * (11 - 0) / 1000) = false /\
  (exists q : Q,
     exactValue (offset (fst (step 11 (freshVars64 1000) emptyTrack64)))
     = Some q /\ ~ (q == - (11 # 25))%Q) /\
  (100 <? abs (0 - 40 * ((2500 - 0) / 1000))) = false /\
  (0 - 40 * ((2500 - 0) / 1000) =? -100) = true /\
  offset (fst (step 2500 (freshVars64 100) emptyTrack64)) = 0 /\
  transform (snd (step 2500 (freshVars64 100) emptyTrack64))
  = Some (translateX 0).
Proof.
  split; [vm_compute; reflexivity |].
  split.
  - eexists. split; [vm_compute; reflexivity |].
    vm_compute. discriminate.
  - repeat split; vm_compute; reflexivity.
Qed.

End Binary64Step.

(** ** The range of the offset *)
Section CarouselRange.
Import Carousel.




End CarouselRange.

(** ** Hovering the track *)
Section CarouselHover.
Import Carousel.

Lemma mouseenter_stops (v : Vars) (t : Track) :
  speed (fst (handle MouseEnter (v, t))) = 0
  /\ offset (fst (handle MouseEnter (v, t))) = offset v
  /\ snd (handle MouseEnter (v, t)) = t.
Proof. repeat split. Qed.

Lemma mouseleave_restores_speed (v : Vars) (t : Track) :
  speed (fst (handle MouseLeave (v, t))) = 40
  /\ offset (fst (handle MouseLeave (v, t))) = offset v
  /\ snd (handle MouseLeave (v, t)) = t.
Proof. repeat split. Qed.

(** A step at speed zero, from an offset strictly inside the half width,
    writes the offset it found. *)
Lemma paused_step_in_range (now : Q) (v : Vars) (t : Track) :
  speed v == 0 -> Qabs (offset v) < halfWidth v ->
  offset (fst (step now v t)) == offset v.
Proof.
  intros Hs Hr.
  assert (E : offset v - speed v * ((now - lastTime v) / 1000) == offset v).
  { rewrite Hs. ring. }
  rewrite step_offset_nowrap; [exact E | now rewrite E].
Qed.

(** While the pointer stays over the track, and as long as the offset was
    strictly inside the half width when it entered, no sequence of frames
    moves the offset. *)
Lemma paused_frames_in_range (nows : list Q) :
  forall (v : Vars) (t : Track),
    speed v == 0 -> Qabs (offset v) < halfWidth v ->
    offset (fst (run (map Frame nows) (v, t))) == offset v
    /\ speed (fst (run (map Frame nows) (v, t))) == 0.
Proof.
  induction nows as [| now nows IH]; intros v t Hs Hr.
  - split; [reflexivity | exact Hs].
  - cbn [map run fold_left handle].
    pose proof (paused_step_in_range now v t Hs Hr) as E.
    destruct (step now v t) as [v1 t1] eqn:S1.
    assert (V1 : v1 = fst (step now v t)) by now rewrite S1.
    assert (Hs1 : speed v1 == 0) by (subst v1; exact Hs).
    assert (Hw1 : halfWidth v1 = halfWidth v) by (subst v1; reflexivity).
    cbn [fst] in E.
    assert (Hr1 : Qabs (offset v1) < halfWidth v1)
      by (rewrite Hw1, E; exact Hr).
    destruct (IH v1 t1 Hs1 Hr1) as [IHo IHs].
    unfold run in IHo, IHs. split; [now rewrite IHo | exact IHs].
Qed.

(** C6 at a page that was in the background for ten seconds.  Half width
    100px; the frame at 10000ms takes the offset to -400 and wraps it once,
    to -300; the pointer then enters, speed is 0, and the frame at 10016ms
    still adds 100: the offset and the transform go from -300px to
    -200px. *)
Theorem hovered_step_moves_offset_outside_half_width :
  let s1 := run [Frame 10000; MouseEnter] (freshVars 0, emptyTrack) in
  let s2 := handle (Frame 10016) s1 in
  speed (fst s1) = 0 /\
  offset (fst s1) == - (300 # 1) /\
  transform (snd s1) = Some (translateX (offset (fst s1))) /\
  offset (fst s2) == - (200 # 1) /\
  transform (snd s2) = Some (translateX (offset (fst s2))) /\
  ~ offset (fst s2) == offset (fst s1).
Proof. vm_compute. intuition discriminate. Qed.

End CarouselHover.

(** ** Carousel setup *)
Section CarouselSetup.
Import Carousel.

(** C7. When [CAROUSEL_IMAGES] is undefined, or is the empty list, or
    [#carouselTrack] is missing, the setup block leaves the page as it
    found it: the track has no new item, no animation frame is requested,
    no listener is added, and the animation variables do not exist. *)
Theorem carouselSetup_skipped :
  forall (images : option (list string)) (measure : nat -> Box) (now : Q)
         (p : Page),
    images = None \/ images = Some [] \/ carouselTrack p = None ->
    carouselSetup images measure now p = p /\
    carouselTrack (carouselSetup images measure now p) = carouselTrack p /\
    frameRequests (carouselSetup images measure now p) = frameRequests p /\
    listeners (carouselSetup images measure now p) = listeners p /\
    vars (carouselSetup images measure now p) = vars p.
Proof.
  intros images measure now p H.
  assert (E : carouselSetup images measure now p = p).
  { unfold carouselSetup.
    destruct H as [-> | [-> | ->]]; try reflexivity;
      destruct (carouselTrack p); reflexivity. }
  rewrite E. repeat split.
Qed.

Lemma carouselSetup_skipped_witness :
  carouselSetup (Some []) uniformLayout 0 trackOnlyPage = trackOnlyPage /\
  carouselSetup None uniformLayout 0 trackOnlyPage = trackOnlyPage.
Proof.
  split.
  - apply (carouselSetup_skipped (Some []) uniformLayout 0 trackOnlyPage).
    right; left; reflexivity.
  - apply (carouselSetup_skipped None uniformLayout 0 trackOnlyPage).
    left; reflexivity.
Defined.

(** The guard passes otherwise: with a track and at least one image the
    block requests a frame and registers its three listeners. *)
Lemma carouselSetup_runs (src : string) (rest : list string)
    (measure : nat -> Box) (now : Q) (p : Page) (t : Track) :
  carouselTrack p = Some t ->
  frameRequests (carouselSetup (Some (src :: rest)) measure now p)
    = S (frameRequests p)
  /\ listeners (carouselSetup (Some (src :: rest)) measure now p)
    = listeners p ++ [OnResize; OnMouseEnter; OnMouseLeave].
Proof. intros H. unfold carouselSetup. rewrite H. split; reflexivity. Qed.

Lemma appendAll_items (srcs : list string) :
  forall t : Track,
    appendAll srcs t
    = {| items := items t ++ map makeItem srcs; transform := transform t |}.
Proof.
  induction srcs as [| src rest IH]; intros t; cbn [appendAll map].
  - rewrite app_nil_r. now destruct t.
  - rewrite IH. cbn. now rewrite <- app_assoc.
Qed.

Lemma srcsOf_makeItem (l : list string) : srcsOf (map makeItem l) = l.
Proof.
  induction l as [| x l IH]; [reflexivity |].
  cbn. f_equal. exact IH.
Qed.

(** Position [i] of the list written twice holds entry [i mod n]. *)
Lemma nth_error_doubled {A} (l : list A) (i : nat) :
  (i < 2 * List.length l)%nat ->
  nth_error (l ++ l) i = nth_error l (i mod List.length l).
Proof.
  intros H.
  destruct (Nat.lt_ge_cases i (List.length l)) as [L | G].
  - rewrite nth_error_app1 by exact L. now rewrite Nat.mod_small.
  - rewrite nth_error_app2 by exact G.
    replace (i mod List.length l) with (i - List.length l)%nat;
      [reflexivity |].
    replace i with ((i - List.length l) + 1 * List.length l)%nat at 2
      by lia.
    rewrite Nat.Div0.mod_add. symmetry. apply Nat.mod_small. lia.
Qed.

(** C8, as amended.  For a track and a list of [n >= 1] images, setup
    appends exactly [2 * n] items after the ones the track had, in order;
    item [i] is a [carousel-item] holding one [img] whose [src] is
    [images[i mod n]]; and every URL is the [src] of twice as many
    appended images as it has entries in the list (so of exactly two when
    the list does not repeat it). *)
Theorem carouselSetup_appends_list_twice :
  forall (images : list string) (measure : nat -> Box) (now : Q)
         (p : Page) (t : Track),
    carouselTrack p = Some t -> images <> [] ->
    exists new : list Item,
      carouselTrack (carouselSetup (Some images) measure now p)
        = Some {| items := items t ++ new; transform := transform t |} /\
      List.length new = (2 * List.length images)%nat /\
      (forall i : nat, (i < 2 * List.length images)%nat ->
         exists src : string,
           nth_error images (i mod List.length images) = Some src /\
           nth_error new i
           = Some {| className := "carousel-item";
                     children := [ {| img_src := src;
                                      img_alt := "Carousel image" |} ] |}) /\
      (forall url : string,
         count_occ string_dec (srcsOf new) url
         = (2 * count_occ string_dec images url)%nat).
Proof.
  intros images measure now p t Ht Hne.
  exists (map makeItem (images ++ images)).
  split; [| split; [| split]].
  - unfold carouselSetup. rewrite Ht.
    destruct images as [| x l]; [congruence |].
    cbn [carouselTrack]. now rewrite appendAll_items.
  - rewrite length_map, length_app. lia.
  - intros i Hi.
    assert (Hm : (i mod List.length images < List.length images)%nat).
    { apply Nat.mod_upper_bound. destruct images; [congruence | cbn; lia]. }
    destruct (nth_error images (i mod List.length images)) as [src |] eqn:E.
    + exists src. split; [reflexivity |].
      rewrite nth_error_map, nth_error_doubled by exact Hi.
      now rewrite E.
    + apply nth_error_None in E. lia.
  - intros url. rewrite srcsOf_makeItem, count_occ_app. lia.
Qed.

Lemma carouselSetup_appends_list_twice_witness :
  exists new : list Item,
    carouselTrack
      (carouselSetup (Some ["a.png"; "b.png"]%string) uniformLayout 0
                     trackOnlyPage)
      = Some {| items := [] ++ new; transform := None |} /\
    List.length new = 4%nat /\
    nth_error new 3 = Some (makeItem "b.png").
Proof.
  destruct (carouselSetup_appends_list_twice
              ["a.png"; "b.png"]%string uniformLayout 0 trackOnlyPage
              emptyTrack eq_refl ltac:(discriminate))
    as [new [H1 [H2 [H3 _]]]].
  exists new. split; [exact H1 | split; [exact H2 |]].
  destruct (H3 3%nat ltac:(cbn; lia)) as [src [Hs Hn]].
  cbn in Hs. injection Hs as <-. exact Hn.
Defined.

(** C8 as stated fails on a list that repeats a URL: ["a.png"] is in the
    list, and four of the appended images have it as [src], not two. *)
Lemma repeated_url_appended_four_times :
  In "a.png"%string ["a.png"; "a.png"]%string /\
  option_map
    (fun t => count_occ string_dec (srcsOf (items t)) "a.png"%string)
    (carouselTrack
       (carouselSetup (Some ["a.png"; "a.png"]%string) uniformLayout 0
                      trackOnlyPage))
  = Some 4%nat.
Proof. split; [left; reflexivity | vm_compute; reflexivity]. Qed.

End CarouselSetup.

(** ** Running the handlers *)
Section Handlers.
Import Dom.

Ltac js_run :=
  cbv [bind ret get modify record throw tryCatch documentQuerySelector
       preventDefault scrollTo scrollIntoView setTimeout];
  cbn [scrollY scrollMax innerWidth maxWidth640 sidebar sidebarToggle
       querySelector scrollByOptions hasReplaceState timers log
       setScrollY setSidebar setTimers setLog finalWindow threw].

Lemma contains_remove (c : string) (l : list string) :
  contains c (remove c l) = false.
Proof.
  induction l as [| x l IH]; [reflexivity |].
  cbn [remove filter]. destruct (String.eqb c x) eqn:E; cbn [negb].
  - exact IH.
  - cbn [contains existsb]. rewrite E. exact IH.
Qed.

Lemma contains_snoc (c : string) (l : list string) :
  contains c (l ++ [c]) = true.
Proof.
  unfold contains. rewrite existsb_app. cbn.
  rewrite String.eqb_refl. now rewrite orb_true_r.
Qed.

Lemma contains_toggle (c : string) (l : list string) :
  contains c (toggle c l) = negb (contains c l).
Proof.
  unfold toggle. destruct (contains c l) eqn:E; cbn [negb].
  - apply contains_remove.
  - apply contains_snoc.
Qed.

(** Removing a class that is not there changes nothing. *)
Lemma remove_absent (c : string) (l : list string) :
  contains c l = false -> remove c l = l.
Proof.
  induction l as [| x l IH]; [reflexivity |].
  cbn [contains existsb remove filter]. intros H.
  apply orb_false_iff in H. destruct H as [H1 H2].
  rewrite H1. cbn [negb]. f_equal. now apply IH.
Qed.

(** *** The scroll range *)

Lemma clamp_in_range (max y : Q) :
  0 <= y -> y <= max -> clamp max y == y.
Proof.
  intros H0 H1. unfold clamp.
  destruct (Qle_bool y 0) eqn:A.
  - apply Qle_bool_iff in A. lra.
  - destruct (Qle_bool max y) eqn:B; [| reflexivity].
    apply Qle_bool_iff in B. lra.
Qed.

Lemma clamp_below (max y : Q) : y <= 0 -> clamp max y = 0.
Proof.
  intros H. unfold clamp. apply Qle_bool_iff in H. now rewrite H.
Qed.

Lemma clamp_above (max y : Q) : 0 < y -> max <= y -> clamp max y = max.
Proof.
  intros H0 H1. unfold clamp.
  destruct (Qle_bool y 0) eqn:A.
  - apply Qle_bool_iff in A. lra.
  - apply Qle_bool_iff in H1. now rewrite H1.
Qed.

Lemma clamp_wd (max y y' : Q) : y == y' -> clamp max y == clamp max y'.
Proof.
  intros E. unfold clamp.
  destruct (Qle_bool y 0) eqn:A, (Qle_bool y' 0) eqn:A';
    try apply Qle_bool_iff in A; try apply Qle_bool_iff in A';
    try apply Qle_bool_false in A; try apply Qle_bool_false in A';
    try reflexivity; try lra.
  destruct (Qle_bool max y) eqn:B, (Qle_bool max y') eqn:B';
    try apply Qle_bool_iff in B; try apply Qle_bool_iff in B';
    try apply Qle_bool_false in B; try apply Qle_bool_false in B';
    try reflexivity; try lra.
Qed.

(** *** The sidebar after a handled click *)

(** [closeSidebar] on the page's own sidebar, as one update. *)
Lemma closeSidebar_exact (w : Window) :
  closeSidebar (sidebar w) w
  = Returned tt (setSidebar (withoutOpen (sidebar w)) w).
Proof.
  unfold closeSidebar, withoutOpen.
  destruct w as [y ym iw mq sb tg qs so rs ts lg]. cbn [sidebar].
  destruct sb as [s |]; [| reflexivity].
  destruct (contains "open" (classList s)) eqn:C; [reflexivity |].
  js_run. unfold setSidebar. cbn.
  rewrite (remove_absent _ _ C). now destruct s.
Qed.

Lemma isOpen_withoutOpen (w w' : Window) :
  sidebar w' = withoutOpen (sidebar w) -> isOpen w' = false.
Proof.
  unfold isOpen, withoutOpen. intros ->.
  destruct (sidebar w) as [s |]; [| reflexivity].
  cbn [classList setClassList]. apply contains_remove.
Qed.

Ltac close_sidebar :=
  match goal with
  | |- context [closeSidebar ?s ?w1] =>
      change (closeSidebar s w1) with (closeSidebar (sidebar w1) w1);
      rewrite (closeSidebar_exact w1)
  end.

(** *** [main.js]: the nav-link click handler, by the outcome of the
    lookup *)

Lemma navLinkClick_exact (w : Window) (this : Link) (target : Element) :
  querySelector w (toDOMString (href this)) = Found target ->
  MainJs.navLinkClick this w
  = Returned tt
      (setSidebar (withoutOpen (sidebar w))
         (setScrollY
            (clamp (scrollMax w)
               (scrollY w + rectTop target w - MainJs.scrollOffset w))
            (setLog
               ((log w ++ [PreventDefault])
                ++ [ScrollTo (scrollY w + rectTop target w
                              - MainJs.scrollOffset w) true])
               w))).
Proof.
  intros H. unfold MainJs.navLinkClick. js_run. rewrite H. js_run.
  close_sidebar. reflexivity.
Qed.

Lemma navLinkClick_missing (w : Window) (this : Link) :
  querySelector w (toDOMString (href this)) = NotFound ->
  MainJs.navLinkClick this w
  = Returned tt (setLog (log w ++ [PreventDefault]) w).
Proof.
  intros H. unfold MainJs.navLinkClick. js_run. now rewrite H.
Qed.

Lemma navLinkClick_bad (w : Window) (this : Link) :
  querySelector w (toDOMString (href this)) = BadSelector ->
  MainJs.navLinkClick this w
  = Threw SyntaxError (setLog (log w ++ [PreventDefault]) w).
Proof.
  intros H. unfold MainJs.navLinkClick. js_run. now rewrite H.
Qed.

(** *** [part_000]: the nav-link click handler and its timer *)

Lemma getSidebarAndOffset_eq (w : Window) :
  Part000.getSidebarAndOffset w
  = Returned (sidebar w,
              match sidebar w with
              | Some sb => if maxWidth640 w then height sb + 8 else 12
              | None => 12
              end) w.
Proof. reflexivity. Qed.

Lemma startsWithHash_not_falsy (h : string) :
  Part000.startsWithHash h = true ->
  Part000.falsy (Some h)
  || negb (Part000.startsWithHash (toDOMString (Some h))) = false.
Proof.
  intros H. cbn [toDOMString]. rewrite H.
  destruct h; [discriminate | reflexivity].
Qed.

(** The page a handled click of [part_000] leaves, before its timer. *)
Lemma onNavLinkClick_exact (w : Window) (e : ClickEvent) (this : Link)
    (h : string) (target : Element) :
  currentTarget e = true -> href this = Some h ->
  Part000.startsWithHash h = true -> querySelector w h = Found target ->
  Part000.onNavLinkClick e this w
  = Returned tt
      (setSidebar (withoutOpen (sidebar w))
         (setTimers
            (timers w
             ++ [(320%Z,
                  Nudge match sidebar w with
                        | Some sb =>
                            if maxWidth640 w then height sb + 8 else 12
                        | None => 12
                        end h)])
            (setScrollY (clamp (scrollMax w) (docTop target))
               (setLog
                  ((log w ++ [PreventDefault]) ++ [ScrollIntoView target])
                  w)))).
Proof.
  intros Hc Hh Hs Hq.
  unfold Part000.onNavLinkClick. rewrite Hc, Hh.
  rewrite (startsWithHash_not_falsy h Hs). cbn [negb toDOMString].
  unfold Part000.getSidebarAndOffset. js_run. rewrite Hq. js_run.
  close_sidebar. reflexivity.
Qed.

Lemma onNavLinkClick_missing (w : Window) (e : ClickEvent) (this : Link)
    (h : string) :
  currentTarget e = true -> href this = Some h ->
  Part000.startsWithHash h = true -> querySelector w h = NotFound ->
  Part000.onNavLinkClick e this w
  = Returned tt (setLog ((log w ++ [PreventDefault]) ++ [ConsoleWarn h]) w).
Proof.
  intros Hc Hh Hs Hq.
  unfold Part000.onNavLinkClick. rewrite Hc, Hh.
  rewrite (startsWithHash_not_falsy h Hs). cbn [negb toDOMString].
  js_run. now rewrite Hq.
Qed.

Lemma onNavLinkClick_bad (w : Window) (e : ClickEvent) (this : Link)
    (h : string) :
  currentTarget e = true -> href this = Some h ->
  Part000.startsWithHash h = true -> querySelector w h = BadSelector ->
  Part000.onNavLinkClick e this w
  = Threw SyntaxError (setLog (log w ++ [PreventDefault]) w).
Proof.
  intros Hc Hh Hs Hq.
  unfold Part000.onNavLinkClick. rewrite Hc, Hh.
  rewrite (startsWithHash_not_falsy h Hs). cbn [negb toDOMString].
  js_run. now rewrite Hq.
Qed.

(** A click on a link that is no in-page anchor. *)
Lemma onNavLinkClick_ignored (w : Window) (e : ClickEvent) (this : Link) :
  (href this = None \/
   exists h : string,
     href this = Some h /\ Part000.startsWithHash h = false) ->
  Part000.onNavLinkClick e this w
  = Returned tt (if currentTarget e
                 then setLog (log w ++ [PreventDefault]) w
                 else w).
Proof.
  intros H. unfold Part000.onNavLinkClick.
  destruct (currentTarget e); cbn [negb]; [| reflexivity].
  destruct H as [-> | (h & -> & Hs)].
  - reflexivity.
  - cbn [toDOMString]. rewrite Hs. cbn [negb]. rewrite orb_true_r.
    reflexivity.
Qed.

(** What the timer callback of [part_000] does, with either way of
    scrolling. *)
Lemma fire_exact (off : Q) (h : string) (w : Window) :
  exists w' : Window,
    Part000.fire (Nudge off h) w = Returned tt w' /\
    scrollY w' == clamp (scrollMax w) (scrollY w - off) /\
    log w'
    = (log w ++ (if scrollByOptions w then [ScrollBy (- off)]
                 else [ScrollTo (scrollY w - off) false]))
      ++ (if hasReplaceState w then [ReplaceState h] else []) /\
    sidebar w' = sidebar w /\ timers w' = timers w /\
    scrollMax w' = scrollMax w /\
    scrollByOptions w' = scrollByOptions w /\
    hasReplaceState w' = hasReplaceState w.
Proof.
  unfold Part000.fire, scrollBy. js_run.
  destruct (scrollByOptions w) eqn:B; js_run;
    destruct (hasReplaceState w) eqn:R; js_run;
    eexists; (split; [reflexivity |]);
    cbn [scrollY scrollMax log sidebar timers scrollByOptions
         hasReplaceState];
    rewrite ?app_nil_r; repeat split; try assumption; reflexivity.
Qed.

Lemma runTimers_none (w : Window) :
  timers w = [] -> Part000.runTimers w = Returned tt (setTimers [] w).
Proof. intros H. unfold Part000.runTimers. js_run. now rewrite H. Qed.

Lemma runTimers_one (d : Z) (task : Task) (w : Window) :
  timers w = [(d, task)] ->
  Part000.runTimers w
  = bind (Part000.fire task) (fun _ => ret tt) (setTimers [] w).
Proof. intros H. unfold Part000.runTimers. js_run. now rewrite H. Qed.

Lemma runTimers_two (d1 d2 : Z) (t1 t2 : Task) (w : Window) :
  timers w = [(d1, t1); (d2, t2)] ->
  Part000.runTimers w
  = bind (Part000.fire t1)
      (fun _ => bind (Part000.fire t2) (fun _ => ret tt))
      (setTimers [] w).
Proof. intros H. unfold Part000.runTimers. js_run. now rewrite H. Qed.

(** *** The sidebar toggle *)

Lemma clickToggle_main_flips (w : Window) (sb : Sidebar) :
  sidebarToggle w = true -> sidebar w = Some sb ->
  exists w',
    MainJs.clickToggle w = Returned tt w' /\
    sidebarToggle w' = true /\
    sidebar w' = Some (setClassList (toggle "open" (classList sb)) sb).
Proof.
  intros Ht Hs. unfold MainJs.clickToggle, MainJs.sidebarToggleClick.
  rewrite Ht. js_run. rewrite Hs. js_run.
  eexists. repeat split. exact Ht.
Qed.

Lemma clickToggle_part000_flips (w : Window) (sb : Sidebar) :
  sidebarToggle w = true -> sidebar w = Some sb ->
  exists w',
    Part000.clickToggle w = Returned tt w' /\
    sidebarToggle w' = true /\
    sidebar w' = Some (setClassList (toggle "open" (classList sb)) sb).
Proof.
  intros Ht Hs. unfold Part000.clickToggle, Part000.sidebarToggleClick.
  rewrite Ht. js_run. rewrite Hs. js_run.
  destruct (_ && _); js_run; eexists; repeat split; exact Ht.
Qed.

Lemma clickToggle_main_idle (w : Window) :
  sidebarToggle w = false \/ sidebar w = None ->
  finalWindow (MainJs.clickToggle w) = w.
Proof.
  unfold MainJs.clickToggle, MainJs.sidebarToggleClick.
  intros [H | H].
  - now rewrite H.
  - destruct (sidebarToggle w); [| reflexivity]. js_run. now rewrite H.
Qed.

Lemma clickToggle_part000_idle (w : Window) :
  sidebarToggle w = false \/ sidebar w = None ->
  Part000.clickToggle w = Returned tt w.
Proof.
  unfold Part000.clickToggle, Part000.sidebarToggleClick.
  intros [H | H].
  - now rewrite H.
  - destruct (sidebarToggle w); [| reflexivity]. js_run. now rewrite H.
Qed.

Lemma isOpen_toggled (w w' : Window) (sb : Sidebar) :
  sidebar w = Some sb ->
  sidebar w' = Some (setClassList (toggle "open" (classList sb)) sb) ->
  isOpen w' = negb (isOpen w).
Proof.
  unfold isOpen. intros -> ->. cbn [classList setClassList].
  apply contains_toggle.
Qed.

Lemma clickToggle_part000_returns (w : Window) :
  threw (Part000.clickToggle w) = false.
Proof.
  destruct (sidebarToggle w) eqn:Ht, (sidebar w) as [sb |] eqn:Hs.
  - destruct (clickToggle_part000_flips w sb Ht Hs) as (w' & E & _).
    now rewrite E.
  - rewrite clickToggle_part000_idle; [reflexivity | now right].
  - rewrite clickToggle_part000_idle; [reflexivity | now left].
  - rewrite clickToggle_part000_idle; [reflexivity | now left].
Qed.

Lemma clickToggle_main_throws_iff (w : Window) :
  threw (MainJs.clickToggle w) = true
  <-> sidebarToggle w = true /\ sidebar w = None.
Proof.
  unfold MainJs.clickToggle, MainJs.sidebarToggleClick.
  destruct (sidebarToggle w), (sidebar w) as [sb |] eqn:Hs;
    js_run; try rewrite Hs; js_run; split; intros H;
    try discriminate; try (destruct H; discriminate); auto.
Qed.

(** The toggle handlers make no call that scrolls or sets a timer; the
    one of [part_000] focuses the first nav link when it opens the
    sidebar. *)
Lemma clickToggle_calls (w : Window) (sb : Sidebar) :
  sidebarToggle w = true -> sidebar w = Some sb ->
  log (finalWindow (Part000.clickToggle w))
  = (if negb (contains "open" (classList sb)) && hasNavLink sb
     then log w ++ [Focus] else log w) /\
  scrollY (finalWindow (Part000.clickToggle w)) = scrollY w /\
  timers (finalWindow (Part000.clickToggle w)) = timers w /\
  log (finalWindow (MainJs.clickToggle w)) = log w /\
  scrollY (finalWindow (MainJs.clickToggle w)) = scrollY w /\
  timers (finalWindow (MainJs.clickToggle w)) = timers w.
Proof.
  intros Ht Hs.
  unfold Part000.clickToggle, Part000.sidebarToggleClick,
    MainJs.clickToggle, MainJs.sidebarToggleClick.
  rewrite Ht. js_run. rewrite Hs. js_run.
  cbn [classList hasNavLink setClassList].
  rewrite contains_toggle.
  destruct (negb (contains "open" (classList sb)) && hasNavLink sb);
    js_run; repeat split.
Qed.

End Handlers.

(** ** Further properties of the carousel *)
Section Further.
Import Dom.
Import Carousel.

(** An animation frame leaves the next one requested: the loop goes on. *)
Lemma frame_keeps_request_pending (now : Q) (p : Page) :
  frameRequests (frame now p) = frameRequests p.
Proof.
  unfold frame.
  destruct (frameRequests p) as [| k] eqn:F; [exact F |].
  destruct (carouselTrack p) as [t |]; [| exact F].
  destruct (vars p) as [v |]; [| exact F].
  destruct (step now v t). reflexivity.
Qed.

(** While the pointer is over the track, if the offset was strictly inside
    the half width when it entered, no run of frames moves the offset, the
    speed stays 0, and leaving sets the speed to 40. *)
Theorem hover_freezes_offset_in_range :
  forall (nows : list Q) (v : Vars) (t : Track),
    Qabs (offset v) < halfWidth v ->
    offset (fst (run (MouseEnter :: map Frame nows) (v, t))) == offset v /\
    speed (fst (run (MouseEnter :: map Frame nows) (v, t))) == 0 /\
    speed (fst (handle MouseLeave
                  (run (MouseEnter :: map Frame nows) (v, t)))) = 40.
Proof.
  intros nows v t Hr.
  change (run (MouseEnter :: map Frame nows) (v, t))
    with (run (map Frame nows) (onMouseEnter v, t)).
  destruct (paused_frames_in_range nows (onMouseEnter v) t)
    as [Ho Hs]; [reflexivity | exact Hr |].
  split; [exact Ho |]. split; [exact Hs |].
  destruct (run (map Frame nows) (onMouseEnter v, t)). reflexivity.
Qed.

Lemma hover_freezes_offset_in_range_witness :
  offset (fst (run [MouseEnter; Frame 16; Frame 32]
                   (freshVars 0, emptyTrack))) == 0.
Proof.
  apply (hover_freezes_offset_in_range [16; 32] (freshVars 0) emptyTrack).
  reflexivity.
Defined.

End Further.


(** ** The animation over many frames *)
Section CarouselRuns.
Import Carousel.

Lemma run_frames_cons (now : Q) (nows : list Q) (v : Vars) (t : Track) :
  run (map Frame (now :: nows)) (v, t) = run (map Frame nows) (step now v t).
Proof. reflexivity. Qed.




End CarouselRuns.


(** ** The half width measured by setup, in binary64 *)
Section Layout64.
Import Carousel64.
Local Open Scope float_scope.





End Layout64.

(** ** The frame loop *)
Section FrameLoop.
Import Carousel.

(** *** The loop of animation frames on the page *)

Lemma run_frames_track (nows : list Q) :
  forall (v : Vars) (t : Track),
    items (snd (run (map Frame nows) (v, t))) = items t /\
    (nows <> [] ->
     transform (snd (run (map Frame nows) (v, t)))
     = Some (translateX (offset (fst (run (map Frame nows) (v, t)))))).
Proof.
  induction nows as [| now nows IH]; intros v t.
  - split; [reflexivity | congruence].
  - rewrite run_frames_cons.
    destruct (step now v t) as [v1 t1] eqn:S1.
    assert (I1 : items t1 = items t)
      by (change t1 with (snd (v1, t1)); now rewrite <- S1).
    assert (T1 : transform t1 = Some (translateX (offset v1))).
    { change t1 with (snd (v1, t1)). change v1 with (fst (v1, t1)) at 2.
      rewrite <- S1. apply step_transform. }
    destruct (IH v1 t1) as [Hi Ht]. split; [now rewrite Hi |].
    intros _. destruct nows as [| now' nows'].
    + exact T1.
    + apply Ht. discriminate.
Qed.

Lemma frames_run (nows : list Q) :
  forall (p : Page) (k : nat) (v : Vars) (t : Track),
    frameRequests p = S k -> carouselTrack p = Some t -> vars p = Some v ->
    frames nows p
    = {| carouselTrack := Some (snd (run (map Frame nows) (v, t)));
         frameRequests := S k;
         listeners := listeners p;
         vars := Some (fst (run (map Frame nows) (v, t))) |}.
Proof.
  induction nows as [| now nows IH]; intros p k v t Hf Ht Hv.
  - destruct p. cbn in *. now subst.
  - change (frames (now :: nows) p) with (frames nows (frame now p)).
    rewrite run_frames_cons.
    assert (F : frame now p
                = {| carouselTrack := Some (snd (step now v t));
                     frameRequests := S k;
                     listeners := listeners p;
                     vars := Some (fst (step now v t)) |}).
    { unfold frame. rewrite Hf, Ht, Hv. now destruct (step now v t). }
    rewrite (IH (frame now p) k (fst (step now v t)) (snd (step now v t)));
      rewrite F; reflexivity.
Qed.

(** Once setup has run, the loop never stops and never touches the items:
    after any number of frames one frame request is still pending, the
    listeners are the ones setup registered, the track holds the items it
    held before setup followed by the list twice, and (after at least one
    frame) its transform is [translateX] of the current offset. *)
Theorem animation_loop_keeps_running :
  forall (images : list string) (measure : nat -> Box) (now : Q)
         (p : Page) (t : Track) (nows : list Q),
    carouselTrack p = Some t -> images <> [] ->
    frameRequests (frames nows (carouselSetup (Some images) measure now p))
      = S (frameRequests p) /\
    listeners (frames nows (carouselSetup (Some images) measure now p))
      = listeners p ++ [OnResize; OnMouseEnter; OnMouseLeave] /\
    exists (v' : Vars) (t' : Track),
      vars (frames nows (carouselSetup (Some images) measure now p))
        = Some v' /\
      carouselTrack (frames nows (carouselSetup (Some images) measure now p))
        = Some t' /\
      items t' = items t ++ map makeItem (images ++ images) /\
      (nows <> [] -> transform t' = Some (translateX (offset v'))).
Proof.
  intros images measure now p t nows Ht Hne.
  destruct images as [| x l]; [congruence |].
  set (images := x :: l).
  set (t0 := appendAll (images ++ images) t).
  set (v0 := {| speed := 40; offset := 0; lastTime := now;
                halfWidth := getHalfWidth measure t0 |}).
  assert (S0 : carouselSetup (Some images) measure now p
               = {| carouselTrack := Some t0;
                    frameRequests := S (frameRequests p);
                    listeners :=
                      listeners p ++ [OnResize; OnMouseEnter; OnMouseLeave];
                    vars := Some v0 |}).
  { unfold carouselSetup. rewrite Ht. reflexivity. }
  rewrite S0.
  erewrite (frames_run nows); [| reflexivity | reflexivity | reflexivity].
  cbn [frameRequests listeners vars carouselTrack].
  split; [reflexivity |]. split; [reflexivity |].
  destruct (run_frames_track nows v0 t0) as [Hi Htr].
  eexists _, _. split; [reflexivity |]. split; [reflexivity |].
  split; [| exact Htr].
  rewrite Hi. subst t0. now rewrite appendAll_items.
Qed.

Lemma animation_loop_keeps_running_witness :
  frameRequests
    (frames [16; 33; 50]
       (carouselSetup (Some ["a.png"]%string) uniformLayout 0 trackOnlyPage))
  = 1%nat.
Proof.
  apply (animation_loop_keeps_running
           ["a.png"]%string uniformLayout 0 trackOnlyPage emptyTrack
           [16; 33; 50] eq_refl).
  discriminate.
Defined.

End FrameLoop.


(** ** More on the class list and the sidebar *)
Section ClassList.
Import Dom.

Lemma contains_app (d : string) (l l' : list string) :
  contains d (l ++ l') = contains d l || contains d l'.
Proof. unfold contains. apply existsb_app. Qed.

Lemma contains_remove_other (c d : string) (l : list string) :
  d <> c -> contains d (remove c l) = contains d l.
Proof.
  intros Hn. induction l as [| x l IH]; [reflexivity |].
  cbn [remove filter contains existsb].
  destruct (String.eqb c x) eqn:E; cbn [negb].
  - apply String.eqb_eq in E. subst x.
    apply String.eqb_neq in Hn. rewrite Hn. exact IH.
  - cbn [contains existsb]. f_equal. exact IH.
Qed.

Lemma remove_snoc_absent (c : string) (l : list string) :
  contains c l = false -> remove c (l ++ [c]) = l.
Proof.
  intros H. unfold remove. rewrite filter_app. cbn [filter].
  rewrite String.eqb_refl. cbn [negb]. rewrite app_nil_r.
  apply remove_absent. exact H.
Qed.

(** Toggling a class twice gives back the same set of classes, and the very
    same list when the class was not there to begin with (when it was, it
    moves to the end). *)
Theorem toggle_twice_restores_classes :
  forall (c : string) (l : list string),
    (forall d : string,
       contains d (toggle c (toggle c l)) = contains d l) /\
    (contains c l = false -> toggle c (toggle c l) = l) /\
    (contains c l = true -> toggle c (toggle c l) = remove c l ++ [c]).
Proof.
  intros c l. destruct (contains c l) eqn:E.
  - assert (T : toggle c (toggle c l) = remove c l ++ [c]).
    { unfold toggle at 2. rewrite E. unfold toggle.
      now rewrite contains_remove. }
    split; [| split; [discriminate | intros _; exact T]].
    intros d. rewrite T, contains_app.
    destruct (String.eqb_spec d c) as [-> | Hn].
    + rewrite E. cbn. rewrite String.eqb_refl. apply orb_true_r.
    + rewrite (contains_remove_other c d l Hn). cbn.
      apply String.eqb_neq in Hn. rewrite Hn. now rewrite !orb_false_r.
  - assert (T : toggle c (toggle c l) = l).
    { unfold toggle at 2. rewrite E. unfold toggle.
      rewrite contains_snoc. now apply remove_snoc_absent. }
    split; [| split; [intros _; exact T | discriminate]].
    intros d. now rewrite T.
Qed.

Lemma withoutOpen_idem (sb : option Sidebar) :
  withoutOpen (withoutOpen sb) = withoutOpen sb.
Proof.
  destruct sb as [s |]; [| reflexivity].
  unfold withoutOpen. cbn [classList setClassList position width height
                           hasNavLink].
  now rewrite (remove_absent _ _ (contains_remove "open" (classList s))).
Qed.

End ClassList.



(** ** Where a nav-link click scrolls to *)
Section ScrollDestination.
Import Dom.

(** When [main.js] takes the sidebar for a top bar. *)
Lemma isTopBar_spec (sb : Sidebar) (w : Window) :
  MainJs.isTopBar sb w = true
  <-> position sb = "fixed"%string /\ innerWidth w - 1 <= width sb.
Proof.
  unfold MainJs.isTopBar.
  rewrite andb_true_iff, String.eqb_eq, Qle_bool_iff. reflexivity.
Qed.

Lemma isTopBar_false (sb : Sidebar) (w : Window) :
  position sb <> "fixed"%string \/ width sb < innerWidth w - 1 ->
  MainJs.isTopBar sb w = false.
Proof.
  intros H. destruct (MainJs.isTopBar sb w) eqn:E; [| reflexivity].
  apply isTopBar_spec in E. destruct E as [Ep Ew].
  destruct H as [H | H]; [congruence | lra].
Qed.

(** C2, as amended.  A click on a nav link whose [href] selects an
    element: [main.js] asks for one smooth scroll, to the target's document
    position ([scrollY] plus the top of its bounding rectangle) minus an
    offset.  The offset is the sidebar's height plus 8 when the sidebar is
    there, its computed position is [fixed] and it is at least
    [innerWidth - 1] wide; it is 12 without a sidebar, with a sidebar that
    is not [fixed], and with one that is narrower.  The page ends at that
    destination clamped to its scroll range; when the destination lies in
    the range, the target's top is the offset below the top of the
    viewport.  [getSidebarAndOffset] of [part_000] returns the same two
    offsets, by its media query. *)
Theorem navLinkClick_scrolls_target_to_offset :
  forall (w : Window) (this : Link) (target : Element),
    querySelector w (toDOMString (href this)) = Found target ->
    exists (w' : Window) (offset dest : Q),
      MainJs.navLinkClick this w = Returned tt w' /\
      log w' = log w ++ [PreventDefault; ScrollTo dest true] /\
      dest == (scrollY w + rectTop target w) - offset /\
      dest == docTop target - offset /\
      (sidebar w = None -> offset = 12) /\
      (forall sb, sidebar w = Some sb ->
         position sb = "fixed"%string -> innerWidth w - 1 <= width sb ->
         offset = height sb + 8) /\
      (forall sb, sidebar w = Some sb ->
         position sb <> "fixed"%string \/ width sb < innerWidth w - 1 ->
         offset = 12) /\
      scrollY w' == clamp (scrollMax w) dest /\
      (0 <= dest -> dest <= scrollMax w ->
       scrollY w' == dest /\ rectTop target w' == offset) /\
      exists offset' : Q,
        Part000.getSidebarAndOffset w = Returned (sidebar w, offset') w /\
        (sidebar w = None -> offset' = 12) /\
        (forall sb, sidebar w = Some sb -> maxWidth640 w = true ->
           offset' = height sb + 8) /\
        (forall sb, sidebar w = Some sb -> maxWidth640 w = false ->
           offset' = 12).
Proof.
  intros w this target H.
  rewrite (navLinkClick_exact w this target H).
  eexists _, (MainJs.scrollOffset w),
    (scrollY w + rectTop target w - MainJs.scrollOffset w).
  split; [reflexivity |].
  split; [cbn [log setSidebar setScrollY setLog];
          now rewrite <- app_assoc |].
  split; [reflexivity |].
  split; [unfold rectTop; ring |].
  split; [unfold MainJs.scrollOffset; now intros -> |].
  split.
  { intros sb Hs Hp Hw. unfold MainJs.scrollOffset. rewrite Hs.
    now rewrite (proj2 (isTopBar_spec sb w) (conj Hp Hw)). }
  split.
  { intros sb Hs Hn. unfold MainJs.scrollOffset. rewrite Hs.
    now rewrite (isTopBar_false sb w Hn). }
  cbn [scrollY setSidebar setScrollY].
  split; [reflexivity |].
  split.
  { intros H0 H1.
    pose proof (clamp_in_range _ _ H0 H1) as Y.
    split; [exact Y |].
    unfold rectTop at 1. cbn [scrollY setSidebar setScrollY].
    rewrite Y. unfold rectTop. ring. }
  rewrite getSidebarAndOffset_eq. eexists. split; [reflexivity |].
  split; [now intros -> |].
  split; intros sb -> ->; reflexivity.
Qed.

Lemma navLinkClick_scrolls_target_to_offset_witness :
  exists w' : Window,
    MainJs.navLinkClick aboutLink
      (samplePage 400 true (Some topBarSidebar) true)
    = Returned tt w' /\
    scrollY w' == 428 /\ rectTop aboutSection w' == 72.
Proof.
  destruct (navLinkClick_scrolls_target_to_offset
              (samplePage 400 true (Some topBarSidebar) true)
              aboutLink aboutSection eq_refl)
    as (w' & offset & dest & E & _ & _ & D & _ & O & _ & _ & R & _).
  exists w'. split; [exact E |].
  assert (Ho : offset = 64 + 8).
  { apply (O topBarSidebar eq_refl eq_refl). vm_compute. discriminate. }
  subst offset.
  assert (D' : dest == 428) by (rewrite D; reflexivity).
  destruct R as [Ry Rt].
  - rewrite D'. vm_compute. discriminate.
  - rewrite D'. vm_compute. discriminate.
  - split; [now rewrite Ry | exact Rt].
Defined.

(** C2 as stated fails for a section at the very top of the page.  The
    page is scrolled to 300 and the link points to [#home], at document
    position 0; the sidebar is a column, so the offset is 12.  The handler
    asks for position -12; the page stops at 0, and the top of [#home] is at
    the top of the viewport, not 12 below it. *)
Lemma target_at_page_top_stops_short :
  querySelector
    (setScrollY 300 (samplePage 1024 false (Some columnSidebar) true))
    "#home" = Found homeSection /\
  MainJs.scrollOffset
    (setScrollY 300 (samplePage 1024 false (Some columnSidebar) true))
  = 12 /\
  log (finalWindow
         (MainJs.navLinkClick homeLink
            (setScrollY 300
               (samplePage 1024 false (Some columnSidebar) true))))
  = [PreventDefault; ScrollTo (- (12)) true] /\
  scrollY (finalWindow
             (MainJs.navLinkClick homeLink
                (setScrollY 300
                   (samplePage 1024 false (Some columnSidebar) true))))
  == 0 /\
  ~ rectTop homeSection
      (finalWindow
         (MainJs.navLinkClick homeLink
            (setScrollY 300
               (samplePage 1024 false (Some columnSidebar) true))))
    == 12.
Proof. vm_compute. intuition discriminate. Qed.

End ScrollDestination.

(** ** Missing elements *)
Section MissingElements.
Import Dom.

(** C3 at a page that has the button [#sidebarToggle] and no [#sidebar]:
    in [main.js] a click on the button throws a [TypeError] from the
    handler, where [part_000], which checks the sidebar first, returns
    and leaves the page alone. *)
Theorem toggle_click_without_sidebar_throws :
  MainJs.clickToggle (samplePage 1024 false None true)
    = Threw TypeError (samplePage 1024 false None true) /\
  Part000.clickToggle (samplePage 1024 false None true)
    = Returned tt (samplePage 1024 false None true).
Proof. split; reflexivity. Qed.

(** The other lookups of [main.js] are guarded: without a target, the
    nav-link handler stops after [preventDefault]; without the button, no
    toggle handler runs. *)
Lemma missing_target_or_button_skipped (w : Window) (this : Link) :
  (querySelector w (toDOMString (href this)) = NotFound ->
   MainJs.navLinkClick this w
   = Returned tt (setLog (log w ++ [PreventDefault]) w)) /\
  (sidebarToggle w = false -> MainJs.clickToggle w = Returned tt w).
Proof.
  split.
  - apply navLinkClick_missing.
  - intros H. unfold MainJs.clickToggle. now rewrite H.
Qed.

End MissingElements.

(** ** The timer of the scroll adjustment *)
Section AdjustmentTimer.
Import Dom.

(** C4, as amended.  For a click that [part_000] handles (the event has
    its [currentTarget], the [href] is an in-page anchor, the target
    exists), the handler leaves one new timer of 320ms whose callback
    moves the viewport up by the offset, as far as the scroll range allows;
    [main.js], on the same click, sets no timer and subtracts the offset in
    the destination of its one [scrollTo]. *)
Theorem adjustment_timer_in_part000_only :
  forall (w : Window) (e : ClickEvent) (this : Link) (h : string)
         (target : Element),
    currentTarget e = true -> href this = Some h ->
    Part000.startsWithHash h = true -> querySelector w h = Found target ->
    (exists (w2 : Window) (off : Q),
       Part000.onNavLinkClick e this w = Returned tt w2 /\
       Part000.getSidebarAndOffset w = Returned (sidebar w, off) w /\
       timers w2 = timers w ++ [(320%Z, Nudge off h)] /\
       forall wt : Window, exists wt' : Window,
         Part000.fire (Nudge off h) wt = Returned tt wt' /\
         scrollY wt' == clamp (scrollMax wt) (scrollY wt - off) /\
         (0 <= scrollY wt - off -> scrollY wt - off <= scrollMax wt ->
          scrollY wt' == scrollY wt - off)) /\
    (exists w1 : Window,
       MainJs.navLinkClick this w = Returned tt w1 /\
       timers w1 = timers w /\
       log w1 = log w ++
                [PreventDefault;
                 ScrollTo (scrollY w + rectTop target w
                           - MainJs.scrollOffset w) true]).
Proof.
  intros w e this h target Hc Hh Hs Hq. split.
  - rewrite (onNavLinkClick_exact w e this h target Hc Hh Hs Hq).
    eexists _, _. split; [reflexivity |].
    split; [apply getSidebarAndOffset_eq |].
    split; [reflexivity |].
    intros wt.
    match goal with
    | |- context [Nudge ?off h] =>
        destruct (fire_exact off h wt) as (wt' & F & Fy & _)
    end.
    exists wt'. split; [exact F |]. split; [exact Fy |].
    intros H0 H1. rewrite Fy. now apply clamp_in_range.
  - assert (Hq1 : querySelector w (toDOMString (href this)) = Found target)
      by now rewrite Hh.
    rewrite (navLinkClick_exact w this target Hq1).
    eexists. split; [reflexivity |]. split; [reflexivity |].
    cbn [log setSidebar setScrollY setLog]. now rewrite <- app_assoc.
Qed.

Lemma adjustment_timer_in_part000_only_witness :
  timers (finalWindow
            (Part000.onNavLinkClick userClick aboutLink
               (samplePage 400 true (Some topBarSidebar) true)))
    = [(320%Z, Nudge (64 + 8) "#about")] /\
  timers (finalWindow
            (MainJs.navLinkClick aboutLink
               (samplePage 400 true (Some topBarSidebar) true)))
    = [].
Proof.
  destruct (adjustment_timer_in_part000_only
              (samplePage 400 true (Some topBarSidebar) true)
              userClick aboutLink "#about"%string aboutSection
              eq_refl eq_refl eq_refl eq_refl)
    as [(w2 & off & E2 & G & T2 & _) (w1 & E1 & T1 & _)].
  rewrite E2, E1. cbn [finalWindow]. rewrite T2, T1.
  injection G as <-. split; reflexivity.
Defined.

(** C4 as stated fails for [main.js]: the click on [#about] is handled
    (the log shows the one smooth scroll to 428px), and no timer is
    pending when the handler is done. *)
Lemma main_js_click_sets_no_timer :
  querySelector (samplePage 400 true (Some topBarSidebar) true) "#about"
    = Found aboutSection /\
  log (finalWindow
         (MainJs.navLinkClick aboutLink
            (samplePage 400 true (Some topBarSidebar) true)))
    = [PreventDefault; ScrollTo 428 true] /\
  timers (finalWindow
            (MainJs.navLinkClick aboutLink
               (samplePage 400 true (Some topBarSidebar) true)))
    = [].
Proof. vm_compute. repeat split. Qed.

End AdjustmentTimer.


(** ** The two versions side by side *)
Section Versions.
Import Dom.

(** C5, as amended.  On a click that carries its [currentTarget], on a
    link whose [href] is an in-page anchor, with no timer of an earlier
    click pending, on a page where the two tests for a top bar give the same
    answer (position [fixed] and at least [innerWidth - 1] wide, for
    [main.js]; at most 640px of viewport, for [part_000]) and where the
    target, if there is one, lies at a position the page can scroll to,
    the two handlers either both throw or both return, and the page ends at
    the same scroll position and with the same sidebar in both versions,
    once the timer of [part_000] has run. *)
Theorem versions_agree_when_top_bar_tests_agree :
  forall (w : Window) (e : ClickEvent) (this : Link) (h : string),
    currentTarget e = true -> href this = Some h ->
    Part000.startsWithHash h = true ->
    timers w = [] ->
    (forall sb, sidebar w = Some sb ->
       (maxWidth640 w = true
        <-> position sb = "fixed"%string /\ innerWidth w - 1 <= width sb)) ->
    (forall target, querySelector w h = Found target ->
       0 <= docTop target /\ docTop target <= scrollMax w) ->
    threw (MainJs.navLinkClick this w) = threw (clickAndSettle e this w) /\
    scrollY (finalWindow (MainJs.navLinkClick this w))
      == scrollY (finalWindow (clickAndSettle e this w)) /\
    sidebar (finalWindow (MainJs.navLinkClick this w))
      = sidebar (finalWindow (clickAndSettle e this w)).
Proof.
  intros w e this h Hc Hh Hs Ht Hagree Hrange.
  unfold clickAndSettle, bind.
  destruct (querySelector w h) as [target | |] eqn:Hq.
  - assert (Hq1 : querySelector w (toDOMString (href this)) = Found target)
      by now rewrite Hh.
    destruct (Hrange target eq_refl) as [R0 R1].
    rewrite (navLinkClick_exact w this target Hq1).
    rewrite (onNavLinkClick_exact w e this h target Hc Hh Hs Hq).
    set (off := match sidebar w with
                | Some sb => if maxWidth640 w then height sb + 8 else 12
                | None => 12
                end).
    assert (O : MainJs.scrollOffset w = off).
    { unfold MainJs.scrollOffset, off.
      destruct (sidebar w) as [sb |] eqn:Hsb; [| reflexivity].
      destruct (maxWidth640 w) eqn:M.
      - now rewrite (proj2 (isTopBar_spec sb w)
                       (proj1 (Hagree sb eq_refl) eq_refl)).
      - destruct (MainJs.isTopBar sb w) eqn:T; [| reflexivity].
        apply isTopBar_spec in T. apply (Hagree sb eq_refl) in T.
        discriminate. }
    match goal with
    | |- context [Part000.runTimers ?w1] =>
        set (w1' := w1);
        assert (T1 : timers w1' = [(320%Z, Nudge off h)])
          by (subst w1'; cbn [timers setSidebar setTimers]; rewrite Ht;
              reflexivity);
        rewrite (runTimers_one _ _ w1' T1)
    end.
    unfold bind.
    destruct (fire_exact off h (setTimers [] w1'))
      as (w2 & E2 & Y2 & _ & S2 & _).
    rewrite E2. cbv [ret]. cbn [threw finalWindow].
    split; [reflexivity |]. split.
    + rewrite Y2. subst w1'.
      cbn [scrollY scrollMax setSidebar setTimers setScrollY setLog].
      rewrite O. apply clamp_wd.
      rewrite (clamp_in_range _ _ R0 R1). unfold rectTop. ring.
    + rewrite S2. reflexivity.
  - assert (Hq1 : querySelector w (toDOMString (href this)) = NotFound)
      by now rewrite Hh.
    rewrite (navLinkClick_missing w this Hq1).
    rewrite (onNavLinkClick_missing w e this h Hc Hh Hs Hq).
    rewrite runTimers_none by exact Ht.
    repeat split.
  - assert (Hq1 : querySelector w (toDOMString (href this)) = BadSelector)
      by now rewrite Hh.
    rewrite (navLinkClick_bad w this Hq1).
    rewrite (onNavLinkClick_bad w e this h Hc Hh Hs Hq).
    repeat split.
Qed.

Lemma versions_agree_when_top_bar_tests_agree_witness :
  scrollY (finalWindow
             (MainJs.navLinkClick aboutLink
                (samplePage 400 true (Some topBarSidebar) true)))
    == scrollY (finalWindow
                  (clickAndSettle userClick aboutLink
                     (samplePage 400 true (Some topBarSidebar) true))) /\
  sidebar (finalWindow
             (MainJs.navLinkClick aboutLink
                (samplePage 400 true (Some topBarSidebar) true)))
    = sidebar (finalWindow
                 (clickAndSettle userClick aboutLink
                    (samplePage 400 true (Some topBarSidebar) true))).
Proof.
  apply (versions_agree_when_top_bar_tests_agree
           (samplePage 400 true (Some topBarSidebar) true)
           userClick aboutLink "#about"%string
           eq_refl eq_refl eq_refl eq_refl).
  - intros sb H. injection H as <-. split.
    + intros _. split; [reflexivity | vm_compute; discriminate].
    + intros _. reflexivity.
  - intros target H. injection H as <-.
    split; vm_compute; discriminate.
Defined.

(** C5 as stated fails on a 400px-wide page whose top bar is
    [position: sticky]: [main.js] does not take it for a top bar and
    stops at 500 - 12 = 488, [part_000] goes by the media query and stops
    at 500 - (64 + 8) = 428. *)
Lemma versions_disagree_on_sticky_bar :
  scrollY (finalWindow
             (MainJs.navLinkClick aboutLink
                (samplePage 400 true (Some stickyBarSidebar) true)))
    == 488 /\
  scrollY (finalWindow
             (clickAndSettle userClick aboutLink
                (samplePage 400 true (Some stickyBarSidebar) true)))
    == 428 /\
  ~ scrollY (finalWindow
               (MainJs.navLinkClick aboutLink
                  (samplePage 400 true (Some stickyBarSidebar) true)))
    == scrollY (finalWindow
                  (clickAndSettle userClick aboutLink
                     (samplePage 400 true (Some stickyBarSidebar) true))).
Proof. vm_compute. intuition discriminate. Qed.

(** The versions also part on a last section too short to reach the top
    of the viewport, even where the top-bar tests agree: for [#footer], at
    2400 on a page that scrolls to 2000 at most, [main.js] stops at 2000,
    and [part_000], nudging up from there, at 2000 - 72 = 1928. *)
Lemma versions_disagree_past_scroll_end :
  scrollY (finalWindow
             (MainJs.navLinkClick footerLink
                (samplePage 400 true (Some topBarSidebar) true)))
    == 2000 /\
  scrollY (finalWindow
             (clickAndSettle userClick footerLink
                (samplePage 400 true (Some topBarSidebar) true)))
    == 1928.
Proof. vm_compute. split; reflexivity. Qed.

(** A link whose [href] is a selector but no anchor, [.about] say, is
    scrolled to by [main.js] and left alone by [part_000]. *)
Lemma part000_ignores_non_anchor (w : Window) (e : ClickEvent)
    (this : Link) (h : string) :
  href this = Some h -> Part000.startsWithHash h = false ->
  scrollY (finalWindow (Part000.onNavLinkClick e this w)) = scrollY w /\
  timers (finalWindow (Part000.onNavLinkClick e this w)) = timers w.
Proof.
  intros Hh Hs.
  rewrite (onNavLinkClick_ignored w e this);
    [| right; exists h; now split].
  destruct (currentTarget e); split; reflexivity.
Qed.

End Versions.

(** ** Two clicks on the toggle *)
Section ToggleTwice.
Import Dom.

(** C10. In both versions, two clicks in a row on the toggle button
    leave the sidebar with the class [open] exactly when it had it before
    the first click, on every page. *)
Theorem toggle_twice_restores_open :
  forall w : Window,
    isOpen (finalWindow (MainJs.clickToggle
                           (finalWindow (MainJs.clickToggle w))))
      = isOpen w /\
    isOpen (finalWindow (Part000.clickToggle
                           (finalWindow (Part000.clickToggle w))))
      = isOpen w.
Proof.
  intros w.
  destruct (sidebarToggle w) eqn:Ht, (sidebar w) as [sb |] eqn:Hs.
  - split.
    + destruct (clickToggle_main_flips w sb Ht Hs) as (w1 & E1 & T1 & S1).
      rewrite E1. cbn [finalWindow].
      destruct (clickToggle_main_flips w1 _ T1 S1) as (w2 & E2 & _ & S2).
      rewrite E2. cbn [finalWindow].
      rewrite (isOpen_toggled w1 w2 _ S1 S2), (isOpen_toggled w w1 _ Hs S1).
      apply negb_involutive.
    + destruct (clickToggle_part000_flips w sb Ht Hs) as (w1 & E1 & T1 & S1).
      rewrite E1. cbn [finalWindow].
      destruct (clickToggle_part000_flips w1 _ T1 S1) as (w2 & E2 & _ & S2).
      rewrite E2. cbn [finalWindow].
      rewrite (isOpen_toggled w1 w2 _ S1 S2), (isOpen_toggled w w1 _ Hs S1).
      apply negb_involutive.
  - split.
    + now rewrite !(clickToggle_main_idle w) by (now right).
    + rewrite (clickToggle_part000_idle w) by (now right).
      cbn [finalWindow].
      now rewrite (clickToggle_part000_idle w) by (now right).
  - split.
    + now rewrite !(clickToggle_main_idle w) by (now left).
    + rewrite (clickToggle_part000_idle w) by (now left).
      cbn [finalWindow].
      now rewrite (clickToggle_part000_idle w) by (now left).
  - split.
    + now rewrite !(clickToggle_main_idle w) by (now left).
    + rewrite (clickToggle_part000_idle w) by (now left).
      cbn [finalWindow].
      now rewrite (clickToggle_part000_idle w) by (now left).
Qed.

(** One click does change the class: the two clicks undo each other. *)
Lemma toggle_once_flips_open (w : Window) (sb : Sidebar) :
  sidebarToggle w = true -> sidebar w = Some sb ->
  isOpen (finalWindow (MainJs.clickToggle w)) = negb (isOpen w) /\
  isOpen (finalWindow (Part000.clickToggle w)) = negb (isOpen w).
Proof.
  intros Ht Hs. split.
  - destruct (clickToggle_main_flips w sb Ht Hs) as (w1 & E1 & _ & S1).
    rewrite E1. exact (isOpen_toggled w w1 sb Hs S1).
  - destruct (clickToggle_part000_flips w sb Ht Hs) as (w1 & E1 & _ & S1).
    rewrite E1. exact (isOpen_toggled w w1 sb Hs S1).
Qed.

End ToggleTwice.


(** ** More on the nav-link handlers *)
Section NavFurther.
Import Dom.

Lemma withoutOpen_closed (w : Window) :
  isOpen w = false -> withoutOpen (sidebar w) = sidebar w.
Proof.
  unfold isOpen, withoutOpen.
  destruct (sidebar w) as [s |]; [| reflexivity].
  intros C. rewrite (remove_absent _ _ C). now destruct s.
Qed.

Lemma onNavLinkClick_no_currentTarget (w : Window) (e : ClickEvent)
    (this : Link) :
  currentTarget e = false -> Part000.onNavLinkClick e this w = Returned tt w.
Proof. intros H. unfold Part000.onNavLinkClick. now rewrite H. Qed.

(** The handlers of [part_000] throw in one case only: the toggle handler
    never does, and the nav-link handler does exactly when the event has
    its [currentTarget], the [href] starts with [#], and the browser
    rejects it as a selector (as it does ["#"]). *)
Theorem part000_throws_only_on_rejected_selector :
  forall (w : Window) (e : ClickEvent) (this : Link),
    threw (Part000.clickToggle w) = false /\
    (threw (Part000.onNavLinkClick e this w) = true
     <-> currentTarget e = true /\
         exists h : string,
           href this = Some h /\ Part000.startsWithHash h = true /\
           querySelector w h = BadSelector).
Proof.
  intros w e this. split; [apply clickToggle_part000_returns |].
  destruct (currentTarget e) eqn:Hc.
  - destruct (href this) as [h |] eqn:Hh.
    + destruct (Part000.startsWithHash h) eqn:Hs.
      * destruct (querySelector w h) as [target | |] eqn:Hq.
        -- rewrite (onNavLinkClick_exact w e this h target Hc Hh Hs Hq).
           split; [discriminate |].
           intros (_ & h' & E & _ & Q). injection E as <-. congruence.
        -- rewrite (onNavLinkClick_missing w e this h Hc Hh Hs Hq).
           split; [discriminate |].
           intros (_ & h' & E & _ & Q). injection E as <-. congruence.
        -- rewrite (onNavLinkClick_bad w e this h Hc Hh Hs Hq).
           split; [| reflexivity].
           intros _. split; [reflexivity |]. exists h. auto.
      * rewrite (onNavLinkClick_ignored w e this)
          by (right; exists h; now split).
        rewrite Hc. split; [discriminate |].
        intros (_ & h' & E & S' & _). injection E as <-. congruence.
    + rewrite (onNavLinkClick_ignored w e this) by (now left).
      rewrite Hc. split; [discriminate |].
      intros (_ & h' & E & _). discriminate.
  - rewrite (onNavLinkClick_no_currentTarget w e this Hc).
    split; [discriminate |]. intros (E & _). discriminate.
Qed.

(** In [main.js] the nav-link handler passes every [href] to
    [document.querySelector] and throws exactly when the browser rejects it
    as a selector; a click on the toggle button throws exactly when the
    button exists and the element [#sidebar] does not. *)
Theorem main_js_throws_on_rejected_selector_or_missing_sidebar :
  forall (w : Window) (this : Link),
    (threw (MainJs.navLinkClick this w) = true
     <-> querySelector w (toDOMString (href this)) = BadSelector) /\
    (threw (MainJs.clickToggle w) = true
     <-> sidebarToggle w = true /\ sidebar w = None).
Proof.
  intros w this. split; [| apply clickToggle_main_throws_iff].
  destruct (querySelector w (toDOMString (href this)))
    as [target | |] eqn:Hq.
  - rewrite (navLinkClick_exact w this target Hq). split; discriminate.
  - rewrite (navLinkClick_missing w this Hq). split; discriminate.
  - rewrite (navLinkClick_bad w this Hq). split; reflexivity.
Qed.

(** An [href] the browser rejects as a selector, such as ["#"]: both
    handlers call [preventDefault] and then throw a [SyntaxError] out of
    the handler; nothing is scrolled, no timer is set, no warning is
    written and the sidebar is left as it was. *)
Theorem rejected_selector_throws_after_preventDefault :
  forall (w : Window) (e : ClickEvent) (this : Link) (h : string),
    currentTarget e = true -> href this = Some h ->
    Part000.startsWithHash h = true -> querySelector w h = BadSelector ->
    MainJs.navLinkClick this w
    = Threw SyntaxError (setLog (log w ++ [PreventDefault]) w) /\
    Part000.onNavLinkClick e this w
    = Threw SyntaxError (setLog (log w ++ [PreventDefault]) w).
Proof.
  intros w e this h Hc Hh Hs Hq. split.
  - apply navLinkClick_bad. now rewrite Hh.
  - now apply (onNavLinkClick_bad w e this h).
Qed.

Lemma rejected_selector_throws_after_preventDefault_witness :
  Part000.onNavLinkClick userClick {| href := Some "#"%string |}
    (samplePage 1024 false (Some columnSidebar) true)
  = Threw SyntaxError
      (setLog [PreventDefault]
         (samplePage 1024 false (Some columnSidebar) true)).
Proof.
  apply (rejected_selector_throws_after_preventDefault
           (samplePage 1024 false (Some columnSidebar) true) userClick
           {| href := Some "#"%string |} "#"%string
           eq_refl eq_refl eq_refl eq_refl).
Defined.

Lemma scrollOffset_same (w w1 : Window) :
  sidebar w1 = sidebar w -> innerWidth w1 = innerWidth w ->
  MainJs.scrollOffset w1 = MainJs.scrollOffset w.
Proof.
  unfold MainJs.scrollOffset, MainJs.isTopBar. now intros -> ->.
Qed.

(** In [main.js], on a page whose sidebar is not open (or is missing), a
    second click on the same nav link changes nothing more: the page ends
    at the same scroll position and with the same sidebar as after the first
    click, and the sidebar is the one the page had. *)
Theorem main_js_second_click_stays :
  forall (w : Window) (this : Link),
    isOpen w = false ->
    scrollY (finalWindow
               (MainJs.navLinkClick this
                  (finalWindow (MainJs.navLinkClick this w))))
    == scrollY (finalWindow (MainJs.navLinkClick this w)) /\
    sidebar (finalWindow
               (MainJs.navLinkClick this
                  (finalWindow (MainJs.navLinkClick this w))))
    = sidebar (finalWindow (MainJs.navLinkClick this w)) /\
    sidebar (finalWindow (MainJs.navLinkClick this w)) = sidebar w.
Proof.
  intros w this Hopen.
  pose proof (withoutOpen_closed w Hopen) as Hsb.
  destruct (querySelector w (toDOMString (href this)))
    as [target | |] eqn:Q.
  - rewrite (navLinkClick_exact w this target Q). cbn [finalWindow].
    match goal with
    | |- context [MainJs.navLinkClick this ?w1] =>
        set (w1' := w1);
        assert (Q1 : querySelector w1' (toDOMString (href this))
                     = Found target) by exact Q;
        rewrite (navLinkClick_exact w1' this target Q1);
        assert (S1 : sidebar w1' = sidebar w) by exact Hsb;
        assert (O1 : MainJs.scrollOffset w1' = MainJs.scrollOffset w)
          by (apply scrollOffset_same; [exact S1 | reflexivity])
    end.
    cbn [finalWindow scrollY sidebar setSidebar setScrollY setLog].
    rewrite O1, S1, Hsb. split; [| split; reflexivity].
    change (scrollMax w1') with (scrollMax w).
    apply clamp_wd. unfold rectTop. ring.
  - rewrite (navLinkClick_missing w this Q). cbn [finalWindow].
    match goal with
    | |- context [MainJs.navLinkClick this ?w1] =>
        assert (Q1 : querySelector w1 (toDOMString (href this)) = NotFound)
          by exact Q;
        rewrite (navLinkClick_missing w1 this Q1)
    end.
    repeat split; reflexivity.
  - rewrite (navLinkClick_bad w this Q). cbn [finalWindow].
    match goal with
    | |- context [MainJs.navLinkClick this ?w1] =>
        assert (Q1 : querySelector w1 (toDOMString (href this))
                     = BadSelector) by exact Q;
        rewrite (navLinkClick_bad w1 this Q1)
    end.
    repeat split; reflexivity.
Qed.

Lemma main_js_second_click_stays_witness :
  scrollY (finalWindow
             (MainJs.navLinkClick aboutLink
                (finalWindow
                   (MainJs.navLinkClick aboutLink
                      (samplePage 1024 false (Some columnSidebar) true)))))
  == scrollY (finalWindow
                (MainJs.navLinkClick aboutLink
                   (samplePage 1024 false (Some columnSidebar) true))).
Proof.
  apply (main_js_second_click_stays
           (samplePage 1024 false (Some columnSidebar) true) aboutLink).
  reflexivity.
Defined.

(** The timer callback of [part_000] asks for a smooth [scrollBy] of
    minus the offset where the browser takes the options object, and in the
    [catch] branch for a plain [scrollTo] to [scrollY - offset] where it
    does not; either way the page ends at [scrollY - offset] clamped to its
    scroll range.  [history.replaceState] is called with the anchor exactly
    when it exists. *)
Theorem nudge_scrolls_either_way :
  forall (off : Q) (h : string) (w : Window),
    scrollY (finalWindow (Part000.fire (Nudge off h) w))
    == clamp (scrollMax w) (scrollY w - off) /\
    log (finalWindow (Part000.fire (Nudge off h) w))
    = (log w ++ (if scrollByOptions w then [ScrollBy (- off)]
                 else [ScrollTo (scrollY w - off) false]))
      ++ (if hasReplaceState w then [ReplaceState h] else []).
Proof.
  intros off h w.
  destruct (fire_exact off h w) as (w' & E & Y & L & _).
  rewrite E. cbn [finalWindow]. auto.
Qed.

(** [part_000] does not guard against a second click before the timer of
    the first has run.  On a page whose sidebar is not open, with the
    second target and the positions up to two offsets above it within the
    scroll range, both timers fire after the second [scrollIntoView], and
    the page ends one offset further up than a single click would leave
    it, at the second target's position minus twice the offset. *)
Theorem part000_quick_second_click_overshoots :
  forall (w : Window) (e : ClickEvent) (first second : Link)
         (h1 h2 : string) (target1 target2 : Element) (off : Q),
    currentTarget e = true ->
    href first = Some h1 -> Part000.startsWithHash h1 = true ->
    querySelector w h1 = Found target1 ->
    href second = Some h2 -> Part000.startsWithHash h2 = true ->
    querySelector w h2 = Found target2 ->
    timers w = [] -> isOpen w = false ->
    Part000.getSidebarAndOffset w = Returned (sidebar w, off) w ->
    0 <= off -> 0 <= docTop target2 - off - off ->
    docTop target2 <= scrollMax w ->
    exists w' : Window,
      twoClicksAndSettle e first second w = Returned tt w' /\
      scrollY w' == docTop target2 - off - off /\
      timers w' = [].
Proof.
  intros w e first second h1 h2 target1 target2 off
         Hc Hh1 Hs1 Hq1 Hh2 Hs2 Hq2 Ht Hopen G Hoff Hlo Hhi.
  pose proof (withoutOpen_closed w Hopen) as Hsb.
  rewrite getSidebarAndOffset_eq in G. injection G as G.
  unfold twoClicksAndSettle, bind at 1.
  rewrite (onNavLinkClick_exact w e first h1 target1 Hc Hh1 Hs1 Hq1).
  rewrite G, Hsb.
  match goal with
  | |- context [bind (Part000.onNavLinkClick e second) _ ?w1] =>
      set (w1' := w1);
      assert (Q1 : querySelector w1' h2 = Found target2) by exact Hq2;
      unfold bind at 1;
      rewrite (onNavLinkClick_exact w1' e second h2 target2 Hc Hh2 Hs2 Q1)
  end.
  assert (O1 : match sidebar w1' with
               | Some sb => if maxWidth640 w1' then height sb + 8 else 12
               | None => 12
               end = off).
  { subst w1'. cbn [sidebar maxWidth640 setSidebar setTimers setScrollY
                    setLog]. exact G. }
  rewrite O1.
  match goal with
  | |- context [Part000.runTimers ?w2] =>
      set (w2' := w2);
      assert (T2 : timers w2' = [(320%Z, Nudge off h1); (320%Z, Nudge off h2)])
        by (subst w2' w1'; cbn [timers setSidebar setTimers setScrollY setLog];
            rewrite Ht; reflexivity);
      rewrite (runTimers_two _ _ _ _ w2' T2)
  end.
  unfold bind.
  destruct (fire_exact off h1 (setTimers [] w2'))
    as (w3 & E3 & Y3 & _ & _ & T3 & M3 & _).
  rewrite E3.
  destruct (fire_exact off h2 w3) as (w4 & E4 & Y4 & _ & _ & T4 & _).
  rewrite E4. exists w4.
  split; [reflexivity |]. split; [| now rewrite T4, T3].
  assert (Y2 : scrollY (setTimers [] w2') == docTop target2).
  { subst w2' w1'. cbn [scrollY scrollMax setSidebar setTimers setScrollY
                        setLog].
    apply clamp_in_range; lra. }
  assert (M2 : scrollMax (setTimers [] w2') = scrollMax w) by reflexivity.
  rewrite M2 in Y3, M3.
  assert (Y3' : scrollY w3 == docTop target2 - off).
  { rewrite Y3. rewrite (clamp_wd _ _ (docTop target2 - off))
      by (now rewrite Y2).
    apply clamp_in_range; lra. }
  rewrite Y4, M3.
  rewrite (clamp_wd _ _ (docTop target2 - off - off)) by (now rewrite Y3').
  apply clamp_in_range; lra.
Qed.

Lemma part000_quick_second_click_overshoots_witness :
  exists w' : Window,
    twoClicksAndSettle userClick aboutLink aboutLink
      (samplePage 400 true (Some stickyBarSidebar) true) = Returned tt w' /\
    scrollY w' == 500 - 72 - 72.
Proof.
  destruct (part000_quick_second_click_overshoots
              (samplePage 400 true (Some stickyBarSidebar) true)
              userClick aboutLink aboutLink "#about"%string "#about"%string
              aboutSection aboutSection (64 + 8)
              eq_refl eq_refl eq_refl eq_refl eq_refl eq_refl eq_refl
              eq_refl eq_refl eq_refl)
    as (w' & E & Y & _).
  - vm_compute. discriminate.
  - vm_compute. discriminate.
  - vm_compute. discriminate.
  - exists w'. split; [exact E | exact Y].
Defined.

(** A handled click of [part_000], once its timer has run: when the
    target's position and the position one offset above it lie in the
    scroll range, the target's top is exactly the offset below the top of
    the viewport; no timer is pending and the sidebar does not carry the
    class [open]. *)
Theorem part000_click_settles_at_offset :
  forall (w : Window) (e : ClickEvent) (this : Link) (h : string)
         (target : Element) (off : Q),
    currentTarget e = true -> href this = Some h ->
    Part000.startsWithHash h = true -> querySelector w h = Found target ->
    timers w = [] ->
    Part000.getSidebarAndOffset w = Returned (sidebar w, off) w ->
    0 <= off -> 0 <= docTop target - off -> docTop target <= scrollMax w ->
    exists w' : Window,
      clickAndSettle e this w = Returned tt w' /\
      scrollY w' == docTop target - off /\
      rectTop target w' == off /\
      timers w' = [] /\
      isOpen w' = false.
Proof.
  intros w e this h target off Hc Hh Hs Hq Ht G Hoff Hlo Hhi.
  rewrite getSidebarAndOffset_eq in G. injection G as G.
  unfold clickAndSettle, bind at 1.
  rewrite (onNavLinkClick_exact w e this h target Hc Hh Hs Hq).
  rewrite G.
  match goal with
  | |- context [Part000.runTimers ?w1] =>
      set (w1' := w1);
      assert (T1 : timers w1' = [(320%Z, Nudge off h)])
        by (subst w1'; cbn [timers setSidebar setTimers]; rewrite Ht;
            reflexivity);
      rewrite (runTimers_one _ _ w1' T1)
  end.
  unfold bind.
  destruct (fire_exact off h (setTimers [] w1'))
    as (w2 & E2 & Y2 & _ & S2 & T2 & _).
  rewrite E2. exists w2.
  assert (Y1 : scrollY (setTimers [] w1') == docTop target).
  { subst w1'. cbn [scrollY scrollMax setSidebar setTimers setScrollY
                    setLog].
    apply clamp_in_range; lra. }
  assert (M1 : scrollMax (setTimers [] w1') = scrollMax w) by reflexivity.
  rewrite M1 in Y2.
  assert (Y : scrollY w2 == docTop target - off).
  { rewrite Y2. rewrite (clamp_wd _ _ (docTop target - off))
      by (now rewrite Y1).
    apply clamp_in_range; lra. }
  split; [reflexivity |]. split; [exact Y |].
  split; [unfold rectTop; rewrite Y; ring |].
  split; [now rewrite T2 |].
  apply (isOpen_withoutOpen w). rewrite S2. reflexivity.
Qed.

Lemma part000_click_settles_at_offset_witness :
  exists w' : Window,
    clickAndSettle userClick aboutLink
      (samplePage 400 true (Some topBarSidebar) true) = Returned tt w' /\
    rectTop aboutSection w' == 72.
Proof.
  destruct (part000_click_settles_at_offset
              (samplePage 400 true (Some topBarSidebar) true)
              userClick aboutLink "#about"%string aboutSection (64 + 8)
              eq_refl eq_refl eq_refl eq_refl eq_refl eq_refl)
    as (w' & E & _ & R & _).
  - vm_compute. discriminate.
  - vm_compute. discriminate.
  - vm_compute. discriminate.
  - exists w'. split; [exact E | exact R].
Defined.

(** In [part_000], [preventDefault] comes before the test of the [href]:
    on a nav link whose [href] is missing, empty or not an in-page anchor,
    the handler prevents the default action and does nothing else (no
    scroll, no timer, no warning, the sidebar as it was); with no
    [currentTarget] it does nothing at all. *)
Theorem part000_non_anchor_only_prevents_default :
  forall (w : Window) (e : ClickEvent) (this : Link),
    (href this = None \/
     exists h : string,
       href this = Some h /\ Part000.startsWithHash h = false) ->
    Part000.onNavLinkClick e this w
    = Returned tt (if currentTarget e
                   then setLog (log w ++ [PreventDefault]) w
                   else w).
Proof. intros w e this H. now apply onNavLinkClick_ignored. Qed.

Lemma part000_non_anchor_only_prevents_default_witness :
  Part000.onNavLinkClick userClick {| href := Some "/resume.pdf"%string |}
    (samplePage 1024 false (Some columnSidebar) true)
  = Returned tt
      (setLog [PreventDefault]
         (samplePage 1024 false (Some columnSidebar) true)).
Proof.
  apply (part000_non_anchor_only_prevents_default
           (samplePage 1024 false (Some columnSidebar) true) userClick
           {| href := Some "/resume.pdf"%string |}).
  right. exists "/resume.pdf"%string. split; reflexivity.
Defined.

(** A link to a section that is not on the page, where the browser takes
    the anchor for a selector and finds no element: both versions stop
    after [preventDefault] ([part_000] after one console warning naming the
    anchor); the page is not scrolled, no timer is set, and an open sidebar
    stays open. *)
Theorem missing_target_leaves_page_alone :
  forall (w : Window) (e : ClickEvent) (this : Link) (h : string),
    currentTarget e = true -> href this = Some h ->
    Part000.startsWithHash h = true -> querySelector w h = NotFound ->
    (threw (MainJs.navLinkClick this w) = false /\
     scrollY (finalWindow (MainJs.navLinkClick this w)) = scrollY w /\
     sidebar (finalWindow (MainJs.navLinkClick this w)) = sidebar w /\
     timers (finalWindow (MainJs.navLinkClick this w)) = timers w /\
     log (finalWindow (MainJs.navLinkClick this w))
     = log w ++ [PreventDefault]) /\
    (threw (Part000.onNavLinkClick e this w) = false /\
     scrollY (finalWindow (Part000.onNavLinkClick e this w)) = scrollY w /\
     sidebar (finalWindow (Part000.onNavLinkClick e this w)) = sidebar w /\
     timers (finalWindow (Part000.onNavLinkClick e this w)) = timers w /\
     log (finalWindow (Part000.onNavLinkClick e this w))
     = log w ++ [PreventDefault; ConsoleWarn h]).
Proof.
  intros w e this h Hc Hh Hs Hq. split.
  - assert (Q1 : querySelector w (toDOMString (href this)) = NotFound)
      by now rewrite Hh.
    rewrite (navLinkClick_missing w this Q1). repeat split.
  - rewrite (onNavLinkClick_missing w e this h Hc Hh Hs Hq).
    cbn [threw finalWindow scrollY sidebar timers log setLog].
    rewrite <- app_assoc. repeat split.
Qed.

Lemma missing_target_leaves_page_alone_witness :
  sidebar (finalWindow
             (Part000.onNavLinkClick userClick
                {| href := Some "#contact"%string |}
                (samplePage 400 true (Some topBarSidebar) true)))
  = Some topBarSidebar.
Proof.
  apply (missing_target_leaves_page_alone
           (samplePage 400 true (Some topBarSidebar) true) userClick
           {| href := Some "#contact"%string |} "#contact"%string
           eq_refl eq_refl eq_refl eq_refl).
Defined.

(** A handled click closes the sidebar in both versions and changes
    nothing else about it: the class [open] is gone, every other class is
    still there, position and size are the same; a sidebar that was not
    open is left exactly as it was. *)
Theorem handled_click_closes_sidebar :
  forall (w : Window) (e : ClickEvent) (this : Link) (h : string)
         (target : Element) (sb : Sidebar),
    currentTarget e = true -> href this = Some h ->
    Part000.startsWithHash h = true -> querySelector w h = Found target ->
    sidebar w = Some sb ->
    exists sb' : Sidebar,
      sidebar (finalWindow (MainJs.navLinkClick this w)) = Some sb' /\
      sidebar (finalWindow (Part000.onNavLinkClick e this w)) = Some sb' /\
      contains "open" (classList sb') = false /\
      (forall c : string,
         c <> "open"%string ->
         contains c (classList sb') = contains c (classList sb)) /\
      position sb' = position sb /\ width sb' = width sb /\
      height sb' = height sb /\ hasNavLink sb' = hasNavLink sb /\
      (contains "open" (classList sb) = false -> sb' = sb).
Proof.
  intros w e this h target sb Hc Hh Hs Hq Hsb.
  assert (Q1 : querySelector w (toDOMString (href this)) = Found target)
    by now rewrite Hh.
  rewrite (navLinkClick_exact w this target Q1).
  rewrite (onNavLinkClick_exact w e this h target Hc Hh Hs Hq).
  cbn [finalWindow sidebar setSidebar]. rewrite Hsb. cbn [withoutOpen].
  eexists. split; [reflexivity |]. split; [reflexivity |].
  cbn [classList position width height hasNavLink setClassList].
  split; [apply contains_remove |].
  split; [intros c Hn; now apply contains_remove_other |].
  repeat (split; [reflexivity |]).
  intros C. rewrite (remove_absent _ _ C). now destruct sb.
Qed.

Lemma handled_click_closes_sidebar_witness :
  exists sb' : Sidebar,
    sidebar (finalWindow
               (Part000.onNavLinkClick userClick aboutLink
                  (samplePage 400 true (Some topBarSidebar) true)))
    = Some sb' /\
    contains "open" (classList sb') = false /\
    contains "sidebar" (classList sb') = true.
Proof.
  destruct (handled_click_closes_sidebar
              (samplePage 400 true (Some topBarSidebar) true) userClick
              aboutLink "#about"%string aboutSection topBarSidebar
              eq_refl eq_refl eq_refl eq_refl eq_refl)
    as (sb' & _ & S2 & C & K & _).
  exists sb'. split; [exact S2 |]. split; [exact C |].
  rewrite (K "sidebar"%string); [reflexivity | discriminate].
Defined.

(** The toggle handler of [part_000] moves the focus to the first nav
    link exactly when the click opens the sidebar and the sidebar holds a
    nav link; it never scrolls and sets no timer.  The handler of
    [main.js] makes no call besides the toggle. *)
Theorem toggle_focuses_first_link_on_open :
  forall (w : Window) (sb : Sidebar),
    sidebarToggle w = true -> sidebar w = Some sb ->
    log (finalWindow (Part000.clickToggle w))
    = (if negb (contains "open" (classList sb)) && hasNavLink sb
       then log w ++ [Focus] else log w) /\
    scrollY (finalWindow (Part000.clickToggle w)) = scrollY w /\
    timers (finalWindow (Part000.clickToggle w)) = timers w /\
    log (finalWindow (MainJs.clickToggle w)) = log w /\
    scrollY (finalWindow (MainJs.clickToggle w)) = scrollY w /\
    timers (finalWindow (MainJs.clickToggle w)) = timers w.
Proof. intros w sb Ht Hs. now apply clickToggle_calls. Qed.

Lemma toggle_focuses_first_link_on_open_witness :
  log (finalWindow
         (Part000.clickToggle
            (samplePage 400 true (Some stickyBarSidebar) true)))
  = [Focus] /\
  log (finalWindow
         (Part000.clickToggle
            (samplePage 400 true (Some topBarSidebar) true)))
  = [].
Proof.
  split.
  - apply (toggle_focuses_first_link_on_open
             (samplePage 400 true (Some stickyBarSidebar) true)
             stickyBarSidebar eq_refl eq_refl).
  - apply (toggle_focuses_first_link_on_open
             (samplePage 400 true (Some topBarSidebar) true)
             topBarSidebar eq_refl eq_refl).
Defined.

End NavFurther.
